(** * The MPI convenience wrapper (mpiUtils.h) and the pre-build script

    A shallow embedding of
    - [examples/distributed_inference/plugins/common/mpiUtils.h]: the
      enumerations, the [MpiTypeConverter] table, [MpiRequest], and the
      member functions of [MpiComm] whose bodies are written in the header;
    - [packaging/pre_build_script.sh]: its effect on shell variables and on
      the files of the working tree.

    Member functions that the header only declares are the primitive calls
    of a small free monad; the inline member functions are programs over
    these calls. *)

From Stdlib Require Import ZArith List String Ascii Bool Lia.
From stdpp Require Import base option list gmap strings.

Local Open Scope Z_scope.

(* ===================================================================== *)
(** * Part I: definitions *)
(* ===================================================================== *)

(** ** C++ integer conversions and type names *)
Module Cpp.

(** Conversion to [std::size_t] (64 bits, unsigned): reduction modulo 2^64. *)
Definition to_size_t (z : Z) : Z := z mod 2 ^ 64.

(** Conversion to [std::int64_t]: two's complement wrap-around. *)
Definition to_int64 (z : Z) : Z := (z + 2 ^ 63) mod 2 ^ 64 - 2 ^ 63.

(** The C++ types a template of the header can be instantiated with.  The
    fourteen named constructors are the types [MpiTypeConverter] is
    specialised for; [t_named] stands for any other type and [t_const],
    [t_volatile] for the cv-qualified versions of a type. *)
Inductive CppType : Type :=
| t_std_byte
| t_half
| t_float
| t_double
| t_bool
| t_int8_t
| t_uint8_t
| t_int32_t
| t_uint32_t
| t_int64_t
| t_uint64_t
| t_char
| t_nv_fp8_e4m3
| t_nv_bfloat16
| t_named (name : string)
| t_const (t : CppType)
| t_volatile (t : CppType).

(** [std::remove_cv_t]: strips the top-level qualifiers. *)
Fixpoint remove_cv_t (t : CppType) : CppType :=
  match t with
  | t_const t' => remove_cv_t t'
  | t_volatile t' => remove_cv_t t'
  | _ => t
  end.

(** What the language and the platform say about a type; the header uses
    [std::is_fundamental_v], [sizeof] and, for [std::vector<T>::resize],
    the vector's [max_size()]. *)
Record TypeTraits : Type := {
  is_fundamental_v : CppType -> bool;
  sizeof : CppType -> Z;
  max_size : CppType -> Z
}.

(** The preprocessor switches of the header. *)
Record Config : Type := {
  ENABLE_FP8 : bool;
  ENABLE_BF16 : bool
}.

End Cpp.

(** ** namespace tensorrt_llm::runtime: what the header uses of iBuffer.h *)
Module Runtime.

(** [runtime::MemoryType] is declared in common/iBuffer.h.  The header
    names one enumerator, [kGPU]; every other enumerator is represented
    by its number. *)
Inductive MemoryType : Type :=
| kGPU
| kOTHER (index : nat).

Definition MemoryType_eqb (a b : MemoryType) : bool :=
  match a, b with
  | kGPU, kGPU => true
  | kOTHER i, kOTHER j => Nat.eqb i j
  | _, _ => false
  end.

(** [runtime::IBuffer], an abstract interface: the three observers the
    header calls. *)
Record IBuffer : Type := {
  getMemoryType : MemoryType;
  data : list Byte.byte;
  getSizeInBytes : Z
}.

End Runtime.

(** ** namespace tensorrt_llm::mpi *)
Module Mpi.
Import Cpp Runtime.

(** Opaque handles of the native library, written as integers. *)
Definition MPI_Comm : Type := Z.
Definition MPI_Request : Type := Z.

(** [MPI_Status]: the three public fields the MPI standard gives it. *)
Record MPI_Status : Type := {
  MPI_SOURCE : Z;
  MPI_TAG : Z;
  MPI_ERROR : Z
}.

(** Constants of mpi.h, which is not part of this repository. *)
Record NativeConstants : Type := {
  MPI_SUCCESS : Z;
  MPI_THREAD_SINGLE : Z;
  MPI_THREAD_FUNNELED : Z;
  MPI_THREAD_SERIALIZED : Z;
  MPI_THREAD_MULTIPLE : Z
}.

(** A wrapper of MPI data type. *)
Inductive MpiType : Type :=
| kBYTE
| kHALF
| kFLOAT
| kDOUBLE
| kBOOL
| kINT8
| kUINT8
| kINT32
| kUINT32
| kINT64
| kUINT64
| kFP8
| kBF16
| kCHAR.

(** [MpiTypeConverter<T>::value]; [None] where the primary template, which
    has no member [value], is selected. *)
Definition MpiTypeConverter (cfg : Config) (t : CppType) : option MpiType :=
  match t with
  | t_std_byte => Some kBYTE
  | t_half => Some kHALF
  | t_float => Some kFLOAT
  | t_double => Some kDOUBLE
  | t_bool => Some kBOOL
  | t_int8_t => Some kINT8
  | t_uint8_t => Some kUINT8
  | t_int32_t => Some kINT32
  | t_uint32_t => Some kUINT32
  | t_int64_t => Some kINT64
  | t_uint64_t => Some kUINT64
  | t_char => Some kCHAR
  | t_nv_fp8_e4m3 => if ENABLE_FP8 cfg then Some kFP8 else None
  | t_nv_bfloat16 => if ENABLE_BF16 cfg then Some kBF16 else None
  | t_named _ | t_const _ | t_volatile _ => None
  end.

(** The types for which a specialisation is compiled in. *)
Definition supported_types (cfg : Config) : list CppType :=
  [t_std_byte; t_half; t_float; t_double; t_bool; t_int8_t; t_uint8_t;
   t_int32_t; t_uint32_t; t_int64_t; t_uint64_t; t_char]
  ++ (if ENABLE_FP8 cfg then [t_nv_fp8_e4m3] else [])
  ++ (if ENABLE_BF16 cfg then [t_nv_bfloat16] else []).

(** A wrapper of MPI_Op type. *)
Inductive MpiOp : Type :=
| NULLOP
| MAX
| MIN
| SUM
| PROD
| LAND
| BAND
| LOR
| BOR
| LXOR
| BXOR
| MINLOC
| MAXLOC
| REPLACE.

(** A wrapper of the level of MPI thread support. *)
Inductive MpiThreadSupport : Type :=
| THREAD_SINGLE
| THREAD_FUNNELED
| THREAD_SERIALIZED
| THREAD_MULTIPLE.

(** The value of an enumerator in its underlying type [int]. *)
Definition MpiThreadSupport_value (mpi : NativeConstants)
    (m : MpiThreadSupport) : Z :=
  match m with
  | THREAD_SINGLE => MPI_THREAD_SINGLE mpi
  | THREAD_FUNNELED => MPI_THREAD_FUNNELED mpi
  | THREAD_SERIALIZED => MPI_THREAD_SERIALIZED mpi
  | THREAD_MULTIPLE => MPI_THREAD_MULTIPLE mpi
  end.

Record MpiRequest : Type := {
  mRequest : MPI_Request
}.

(** The two data members of [MpiComm]. *)
Record MpiComm : Type := {
  mComm : MPI_Comm;
  mFreeComm : bool
}.

(** *** Calls and programs *)

(** What a [void*] argument points to: one [int64_t], one object of the
    template's type, the elements of a [std::vector], or the bytes of an
    [IBuffer]. *)
Inductive Shape : Type :=
| SInt64
| SObject
| SArray
| SBytes.

Definition El (T : Type) (s : Shape) : Type :=
  match s with
  | SInt64 => Z
  | SObject => T
  | SArray => list T
  | SBytes => list Byte.byte
  end.

(** The calls a body written in the header makes: the member functions of
    [MpiComm] that are only declared there, and the native [MPI_Wait] and
    [MPI_Comm_free] (the latter for the destructor, see below).  The index
    is the type of what comes back: the returned value and, for a call
    that writes through its buffer argument, the buffer afterwards. *)
Inductive Call (T : Type) : Type -> Type :=
| Call_getRank (this : MpiComm) : Call T Z
| Call_bcastAsync (this : MpiComm) (s : Shape) (buffer : El T s)
    (size : Z) (dtype : MpiType) (root : Z) : Call T MpiRequest
| Call_bcast (this : MpiComm) (s : Shape) (buffer : El T s)
    (size : Z) (dtype : MpiType) (root : Z) : Call T (El T s)
| Call_send (this : MpiComm) (s : Shape) (buffer : El T s)
    (size : Z) (dtype : MpiType) (dest tag : Z) : Call T unit
| Call_recv (this : MpiComm) (s : Shape) (buffer : El T s)
    (size : Z) (dtype : MpiType) (source tag : Z)
    : Call T (MPI_Status * El T s)
| Call_MPI_Wait (request : MPI_Request) : Call T (Z * MPI_Request)
| Call_MPI_Comm_free (comm : MPI_Comm) : Call T Z.

Arguments Call_getRank {T} this.
Arguments Call_bcastAsync {T} this s buffer size dtype root.
Arguments Call_bcast {T} this s buffer size dtype root.
Arguments Call_send {T} this s buffer size dtype dest tag.
Arguments Call_recv {T} this s buffer size dtype source tag.
Arguments Call_MPI_Wait {T} request.
Arguments Call_MPI_Comm_free {T} comm.

(** A program: it returns, aborts the process, lets a C++ exception
    escape, or makes a call and goes on with what comes back. *)
Inductive Prog (T R : Type) : Type :=
| Ret (r : R)
| Abort (msg : string)
| Throw (exn : string)
| Vis {X : Type} (c : Call T X) (k : X -> Prog T R).

Arguments Ret {T R} r.
Arguments Abort {T R} msg.
Arguments Throw {T R} exn.
Arguments Vis {T R X} c k.

Fixpoint bind {T A B : Type} (p : Prog T A) (f : A -> Prog T B) : Prog T B :=
  match p with
  | Ret a => f a
  | Abort msg => Abort msg
  | Throw exn => Throw exn
  | Vis c k => Vis c (fun x => bind (k x) f)
  end.

Definition call {T X : Type} (c : Call T X) : Prog T X := Vis c Ret.

Declare Scope prog_scope.
Delimit Scope prog_scope with prog.
Notation "x <- p ;; q" := (bind p (fun x => q))
  (at level 100, p at next level, right associativity) : prog_scope.
Notation "p ;; q" := (bind p (fun _ => q))
  (at level 100, right associativity) : prog_scope.

(** *** Running a program against the library *)

Inductive Outcome (R : Type) : Type :=
| Returned (r : R)
| Aborted (msg : string)
| Thrown (exn : string).

Arguments Returned {R} r.
Arguments Aborted {R} msg.
Arguments Thrown {R} exn.

Definition AnyCall (T : Type) : Type := { X : Type & Call T X }.

Definition any {T X : Type} (c : Call T X) : AnyCall T := existT X c.

(** The library side: what a call answers in a state of the world, or
    [None] when a declared member function does not come back (its own
    check of the native return code aborted the process). *)
Definition Handler (T S : Type) : Type :=
  forall X : Type, Call T X -> S -> option (X * S).

Record Run (T S R : Type) : Type := {
  trace : list (AnyCall T);
  final : S;
  outcome : Outcome R
}.

Arguments trace {T S R} _.
Arguments final {T S R} _.
Arguments outcome {T S R} _.

Fixpoint run {T S R : Type} (h : Handler T S) (p : Prog T R) (st : S)
    : Run T S R :=
  match p with
  | Ret r => {| trace := []; final := st; outcome := Returned r |}
  | Abort msg => {| trace := []; final := st; outcome := Aborted msg |}
  | Throw exn => {| trace := []; final := st; outcome := Thrown exn |}
  | Vis c k =>
      match h _ c st with
      | Some (x, st') =>
          let r := run h (k x) st' in
          {| trace := any c :: trace r;
             final := final r;
             outcome := outcome r |}
      | None =>
          {| trace := [any c];
             final := st;
             outcome := Aborted "aborted inside the call" |}
      end
  end.

(** A call that moves data between processes. *)
Definition is_communication {T X : Type} (c : Call T X) : bool :=
  match c with
  | Call_getRank _ => false
  | Call_bcastAsync _ _ _ _ _ _ => true
  | Call_bcast _ _ _ _ _ _ => true
  | Call_send _ _ _ _ _ _ _ => true
  | Call_recv _ _ _ _ _ _ _ => true
  | Call_MPI_Wait _ => false
  | Call_MPI_Comm_free _ => false
  end.

Definition communication_calls {T : Type} (tr : list (AnyCall T)) : nat :=
  length (List.filter (fun c : AnyCall T => is_communication (projT2 c)) tr).

(** *** The macros *)

Section Macros.
Context {T : Type}.
Local Open Scope prog_scope.

(** Modelled from the spec: [TLLM_CHECK_WITH_INFO] is defined in
    common/assert.h, which is not among the sources.  The spec has it as
    an assertion check: nothing happens when the condition holds, and
    otherwise the process aborts immediately with a diagnostic message. *)
Definition TLLM_CHECK_WITH_INFO (cond : bool) (info : string)
    : Prog T unit :=
  if cond then Ret tt else Abort info.

(** Modelled from the spec: [TLLM_CHECK], of the same absent file; the
    diagnostic is the text of the condition. *)
Definition TLLM_CHECK (cond : bool) (text : string) : Prog T unit :=
  TLLM_CHECK_WITH_INFO cond text.

(** [TLLM_MPI_CHECK(cmd)]: [auto e = cmd;] then the check of [e]. *)
Definition TLLM_MPI_CHECK (mpi : NativeConstants) (cmd : Prog T Z)
    : Prog T unit :=
  e <- cmd ;;
  TLLM_CHECK_WITH_INFO (e =? MPI_SUCCESS mpi) "Failed: MPI error %s:%d '%d'".

(** [MPICHECK(cmd)] *)
Definition MPICHECK (mpi : NativeConstants) (cmd : Prog T Z) : Prog T unit :=
  TLLM_MPI_CHECK mpi cmd.

(** [MpiRequest::wait]: the value [MPI_Wait] returns is dropped. *)
Definition MpiRequest_wait (r : MpiRequest) : Prog T MpiRequest :=
  res <- call (Call_MPI_Wait (mRequest r)) ;;
  Ret {| mRequest := snd res |}.

End Macros.

(** *** The member functions of [MpiComm] written in the header *)

Section Methods.
Context {T : Type} `{Inhabited T}.
Variable traits : TypeTraits.
Variable cfg : Config.
Variable this : MpiComm.
Local Open Scope prog_scope.

Definition not_kGPU (buf : IBuffer) : bool :=
  negb (MemoryType_eqb (getMemoryType buf) kGPU).

Definition with_data (buf : IBuffer) (d : list Byte.byte) : IBuffer :=
  {| getMemoryType := getMemoryType buf;
     data := d;
     getSizeInBytes := getSizeInBytes buf |}.

(** [bcastAsync(runtime::IBuffer& buf, int root)] *)
Definition bcastAsync_IBuffer (buf : IBuffer) (root : Z)
    : Prog T MpiRequest :=
  TLLM_CHECK (not_kGPU buf)
    "buf.getMemoryType() != runtime::MemoryType::kGPU" ;;
  call (Call_bcastAsync this SBytes (data buf) (getSizeInBytes buf)
          kBYTE root).

(** [bcast(runtime::IBuffer& buf, int root)] *)
Definition bcast_IBuffer (buf : IBuffer) (root : Z) : Prog T IBuffer :=
  d <- call (Call_bcast this SBytes (data buf) (getSizeInBytes buf)
               kBYTE root) ;;
  Ret (with_data buf d).

(** [bcastValue(T& value, int root)]; [None] for a fundamental type
    without a converter, for which the instantiation is ill-formed.  Other
    reasons for a template of the header not to instantiate (a
    cv-qualified [T] whose address does not convert to [void*],
    [std::vector<bool>]) are not modelled: there the definitions give the
    body the source would have. *)
Definition bcastValue (ty : CppType) (value : T) (root : Z)
    : option (Prog T T) :=
  if is_fundamental_v traits (remove_cv_t ty) then
    dtype ← MpiTypeConverter cfg (remove_cv_t ty);
    Some (call (Call_bcast this SObject value 1 dtype root))
  else
    Some (call (Call_bcast this SObject value (sizeof traits ty) kBYTE root)).

(** [vec.size()] *)
Definition size (vec : list T) : Z := Z.of_nat (length vec).

(** [vec.resize(n)]: the first [n] elements, padded with
    value-initialised ones; [std::length_error] beyond [max_size()]. *)
Definition vector_resize (ty : CppType) (n : Z) (vec : list T)
    : Prog T (list T) :=
  if max_size traits ty <? n then Throw "std::length_error"
  else Ret (resize (Z.to_nat n) inhabitant vec).

(** The first three statements of [bcast(std::vector<T>& vec, int root)];
    the call of [resize] converts [vecSize] to [size_t]. *)
Definition bcast_vector_size (ty : CppType) (vec : list T) (root : Z)
    : Prog T (list T) :=
  rank <- call (Call_getRank this) ;;
  let vecSize := if rank =? root then to_int64 (size vec) else to_int64 0 in
  vecSize <- call (Call_bcast this SInt64 vecSize 1 kINT64 root) ;;
  vector_resize ty (to_size_t vecSize) vec.

(** [bcast(std::vector<T>& vec, int root)] *)
Definition bcast_vector (ty : CppType) (vec : list T) (root : Z)
    : option (Prog T (list T)) :=
  if is_fundamental_v traits (remove_cv_t ty) then
    mpiType ← MpiTypeConverter cfg (remove_cv_t ty);
    Some (vec <- bcast_vector_size ty vec root ;;
          call (Call_bcast this SArray vec (size vec) mpiType root))
  else
    Some (vec <- bcast_vector_size ty vec root ;;
          call (Call_bcast this SArray vec
                  (to_size_t (size vec * sizeof traits ty)) kBYTE root)).

(** The body of that overload once its [if constexpr] is decided: the
    elements go out as [count vec] units tagged [dtype]. *)
Definition vector_program (ty : CppType) (root : Z) (count : list T -> Z)
    (dtype : MpiType) (vec : list T) : Prog T (list T) :=
  vec <- bcast_vector_size ty vec root ;;
  call (Call_bcast this SArray vec (count vec) dtype root).

(** [send(runtime::IBuffer const& buf, int dest, int tag)] *)
Definition send_IBuffer (buf : IBuffer) (dest tag : Z) : Prog T unit :=
  TLLM_CHECK (not_kGPU buf)
    "buf.getMemoryType() != runtime::MemoryType::kGPU" ;;
  call (Call_send this SBytes (data buf) (getSizeInBytes buf) kBYTE
          dest tag).

(** [send(T const& value, int dest, int tag)] *)
Definition send_value (ty : CppType) (value : T) (dest tag : Z)
    : option (Prog T unit) :=
  if is_fundamental_v traits (remove_cv_t ty) then
    dtype ← MpiTypeConverter cfg (remove_cv_t ty);
    Some (call (Call_send this SObject value 1 dtype dest tag))
  else
    Some (call (Call_send this SObject value (sizeof traits ty) kBYTE
                  dest tag)).

(** [recv(runtime::IBuffer& buf, int source, int tag)] *)
Definition recv_IBuffer (buf : IBuffer) (source tag : Z)
    : Prog T (MPI_Status * IBuffer) :=
  TLLM_CHECK (not_kGPU buf)
    "buf.getMemoryType() != runtime::MemoryType::kGPU" ;;
  res <- call (Call_recv this SBytes (data buf) (getSizeInBytes buf) kBYTE
                 source tag) ;;
  Ret (fst res, with_data buf (snd res)).

(** [recv(T& value, int source, int tag)] *)
Definition recv_value (ty : CppType) (value : T) (source tag : Z)
    : option (Prog T (MPI_Status * T)) :=
  if is_fundamental_v traits (remove_cv_t ty) then
    dtype ← MpiTypeConverter cfg (remove_cv_t ty);
    Some (call (Call_recv this SObject value 1 dtype source tag))
  else
    Some (call (Call_recv this SObject value (sizeof traits ty) kBYTE
                  source tag)).

(** [operator MPI_Comm()] *)
Definition to_MPI_Comm : MPI_Comm := mComm this.

(** [operator==] *)
Definition eq_op (rhs : MpiComm) : bool := mComm this =? mComm rhs.

End Methods.

(** [operator!=]: [!(rhs == *this)] *)
Definition ne_op (this rhs : MpiComm) : bool := negb (eq_op rhs this).

(** The member functions written in the header, with their arguments. *)
Inductive Method (T : Type) : Type :=
| m_bcastAsync_IBuffer (buf : IBuffer) (root : Z)
| m_bcast_IBuffer (buf : IBuffer) (root : Z)
| m_bcastValue (ty : CppType) (value : T) (root : Z)
| m_bcast_vector (ty : CppType) (vec : list T) (root : Z)
| m_send_IBuffer (buf : IBuffer) (dest tag : Z)
| m_send_value (ty : CppType) (value : T) (dest tag : Z)
| m_recv_IBuffer (buf : IBuffer) (source tag : Z)
| m_recv_value (ty : CppType) (value : T) (source tag : Z).

Arguments m_bcastAsync_IBuffer {T} buf root.
Arguments m_bcast_IBuffer {T} buf root.
Arguments m_bcastValue {T} ty value root.
Arguments m_bcast_vector {T} ty vec root.
Arguments m_send_IBuffer {T} buf dest tag.
Arguments m_send_value {T} ty value dest tag.
Arguments m_recv_IBuffer {T} buf source tag.
Arguments m_recv_value {T} ty value source tag.

(** A program with its result dropped. *)
Definition discard {T R : Type} (p : Prog T R) : Prog T unit :=
  bind p (fun _ => Ret tt).

(** The body a call of a member function runs; [None] for an ill-formed
    instantiation. *)
Definition method_body {T : Type} `{Inhabited T} (traits : TypeTraits)
    (cfg : Config) (this : MpiComm) (m : Method T) : option (Prog T unit) :=
  match m with
  | m_bcastAsync_IBuffer buf root =>
      Some (discard (bcastAsync_IBuffer this buf root))
  | m_bcast_IBuffer buf root =>
      Some (discard (bcast_IBuffer this buf root))
  | m_bcastValue ty value root =>
      discard <$> bcastValue traits cfg this ty value root
  | m_bcast_vector ty vec root =>
      discard <$> bcast_vector traits cfg this ty vec root
  | m_send_IBuffer buf dest tag =>
      Some (discard (send_IBuffer this buf dest tag))
  | m_send_value ty value dest tag =>
      discard <$> send_value traits cfg this ty value dest tag
  | m_recv_IBuffer buf source tag =>
      Some (discard (recv_IBuffer this buf source tag))
  | m_recv_value ty value source tag =>
      discard <$> recv_value traits cfg this ty value source tag
  end.

(** The property the spec gives every member function of the wrapper, as
    the spec words it: the body is a single forwarding call with no control
    flow around it.  In every run, whatever the arguments and whatever the
    library answers, exactly one call is made, and it is a communication
    call. *)
Definition single_forwarding_call {T : Type} `{Inhabited T}
    (traits : TypeTraits) (cfg : Config) (this : MpiComm) (m : Method T)
    : Prop :=
  forall (S : Type) (h : Handler T S) (st : S) (p : Prog T unit),
    method_body traits cfg this m = Some p ->
    length (trace (run h p st)) = 1%nat /\
    communication_calls (trace (run h p st)) = 1%nat.

(** The element count and the tag that the [if constexpr] of a typed helper
    selects for the type [ty]: the type-tag lookup. *)
Definition selects (traits : TypeTraits) (cfg : Config) (ty : CppType)
    (count : Z) (dtype : MpiType) : Prop :=
  (is_fundamental_v traits (remove_cv_t ty) = true /\
   MpiTypeConverter cfg (remove_cv_t ty) = Some dtype /\ count = 1) \/
  (is_fundamental_v traits (remove_cv_t ty) = false /\
   dtype = kBYTE /\ count = sizeof traits ty).

(** Modelled from the spec: the destructor [~MpiComm()] is declared in the
    header and defined in a file that is not among the sources.  The spec
    has the ownership flag say whether this wrapper must release the
    communicator on destruction, and every wrapped call checked for a
    non-success return code. *)
Definition MpiComm_destructor {T : Type} (mpi : NativeConstants)
    (this : MpiComm) : Prog T unit :=
  if mFreeComm this
  then MPICHECK mpi (call (Call_MPI_Comm_free (mComm this)))
  else Ret tt.

Definition releases {T : Type} (comm : MPI_Comm) (c : AnyCall T) : bool :=
  match projT2 c with
  | Call_MPI_Comm_free comm' => comm =? comm'
  | _ => false
  end.

(** [initialize(MpiThreadSupport threadMode = THREAD_FUNNELED)]: the
    argument the function receives for what the call site writes. *)
Definition initialize_threadMode (written : option MpiThreadSupport)
    : MpiThreadSupport :=
  default THREAD_FUNNELED written.

(** *** The declarations of the header *)

Inductive ParamType : Type :=
| P_MPI_Comm
| P_bool
| P_int
| P_size_t
| P_void_ptr
| P_void_const_ptr
| P_MpiType
| P_MpiOp
| P_MpiThreadSupport
| P_IBuffer_ref
| P_IBuffer_const_ref
| P_T_ref
| P_T_const_ref
| P_vector_T_ref
| P_MpiComm_const_ref
| P_MpiComm_rvalue_ref
| P_MPI_Message_ptr
| P_MPI_Status_ptr.

Definition ParamType_eqb (a b : ParamType) : bool :=
  match a, b with
  | P_MPI_Comm, P_MPI_Comm | P_bool, P_bool | P_int, P_int
  | P_size_t, P_size_t | P_void_ptr, P_void_ptr
  | P_void_const_ptr, P_void_const_ptr | P_MpiType, P_MpiType
  | P_MpiOp, P_MpiOp | P_MpiThreadSupport, P_MpiThreadSupport
  | P_IBuffer_ref, P_IBuffer_ref | P_IBuffer_const_ref, P_IBuffer_const_ref
  | P_T_ref, P_T_ref | P_T_const_ref, P_T_const_ref
  | P_vector_T_ref, P_vector_T_ref
  | P_MpiComm_const_ref, P_MpiComm_const_ref
  | P_MpiComm_rvalue_ref, P_MpiComm_rvalue_ref
  | P_MPI_Message_ptr, P_MPI_Message_ptr
  | P_MPI_Status_ptr, P_MPI_Status_ptr => true
  | _, _ => false
  end.

Inductive DeclKind : Type :=
| Constructor
| Destructor
| DeletedCopy
| Move
| ConstMember
| StaticMember
| NonConstMember
| FreeFunction.

Record Declaration : Type := {
  decl_class : string;
  decl_name : string;
  decl_kind : DeclKind;
  decl_params : list ParamType
}.

Definition member (name : string) (kind : DeclKind)
    (params : list ParamType) : Declaration :=
  {| decl_class := "MpiComm"; decl_name := name; decl_kind := kind;
     decl_params := params |}.

(** The members of [class MpiComm], in the order of the header. *)
Definition MpiComm_members : list Declaration :=
  [ member "MpiComm" Constructor [P_MPI_Comm; P_bool];
    member "~MpiComm" Destructor [];
    member "MpiComm" DeletedCopy [P_MpiComm_const_ref];
    member "operator=" DeletedCopy [P_MpiComm_const_ref];
    member "MpiComm" Move [P_MpiComm_rvalue_ref];
    member "operator=" Move [P_MpiComm_rvalue_ref];
    member "getRank" ConstMember [];
    member "getSize" ConstMember [];
    member "operator MPI_Comm" ConstMember [];
    member "world" StaticMember [];
    member "session" StaticMember [];
    member "split" ConstMember [P_int; P_int];
    member "bcastAsync" ConstMember [P_void_ptr; P_size_t; P_MpiType; P_int];
    member "bcastAsync" ConstMember [P_IBuffer_ref; P_int];
    member "bcast" ConstMember [P_void_ptr; P_size_t; P_MpiType; P_int];
    member "bcast" ConstMember [P_IBuffer_ref; P_int];
    member "bcastValue" ConstMember [P_T_ref; P_int];
    member "bcast" ConstMember [P_vector_T_ref; P_int];
    member "send" ConstMember
      [P_void_const_ptr; P_size_t; P_MpiType; P_int; P_int];
    member "send" ConstMember [P_IBuffer_const_ref; P_int; P_int];
    member "send" ConstMember [P_T_const_ref; P_int; P_int];
    member "recv" ConstMember [P_void_ptr; P_size_t; P_MpiType; P_int; P_int];
    member "recv" ConstMember [P_IBuffer_ref; P_int; P_int];
    member "recv" ConstMember [P_T_ref; P_int; P_int];
    member "allreduce" ConstMember
      [P_void_const_ptr; P_void_ptr; P_int; P_MpiType; P_MpiOp];
    member "allgather" ConstMember
      [P_void_const_ptr; P_void_ptr; P_int; P_MpiType];
    member "barrier" ConstMember [];
    member "mprobe" ConstMember
      [P_int; P_int; P_MPI_Message_ptr; P_MPI_Status_ptr];
    member "operator==" ConstMember [P_MpiComm_const_ref];
    member "operator!=" ConstMember [P_MpiComm_const_ref] ].

(** Every function the header declares. *)
Definition header_declarations : list Declaration :=
  [ {| decl_class := "MpiRequest"; decl_name := "MpiRequest";
       decl_kind := Constructor; decl_params := [] |};
    {| decl_class := "MpiRequest"; decl_name := "~MpiRequest";
       decl_kind := Destructor; decl_params := [] |};
    {| decl_class := "MpiRequest"; decl_name := "wait";
       decl_kind := NonConstMember; decl_params := [] |};
    {| decl_class := ""; decl_name := "getMpiDtype";
       decl_kind := FreeFunction; decl_params := [P_MpiType] |} ]
  ++ MpiComm_members
  ++ [ {| decl_class := ""; decl_name := "initialize";
          decl_kind := FreeFunction; decl_params := [P_MpiThreadSupport] |} ].

(** A member function that may change the data members of its object. *)
Definition may_modify (d : Declaration) : bool :=
  match decl_kind d with
  | Constructor | Destructor | Move | NonConstMember => true
  | DeletedCopy | ConstMember | StaticMember | FreeFunction => false
  end.

Definition takes (p : ParamType) (d : Declaration) : bool :=
  existsb (ParamType_eqb p) (decl_params d).

End Mpi.

(** ** The processes of a communicator, for the broadcasts *)
Module World.
Import Cpp Mpi.

Section Broadcast.
Context {T : Type}.

(** What the root of a broadcast offers: the contents of its buffer. *)
Definition Payload : Type := { s : Shape & El T s }.

Definition as_int64 (p : Payload) : option Z :=
  match p with
  | existT s v =>
      match s return El T s -> option Z with
      | SInt64 => fun v => Some v
      | _ => fun _ => None
      end v
  end.

Definition as_object (p : Payload) : option T :=
  match p with
  | existT s v =>
      match s return El T s -> option T with
      | SObject => fun v => Some v
      | _ => fun _ => None
      end v
  end.

Definition as_array (p : Payload) : option (list T) :=
  match p with
  | existT s v =>
      match s return El T s -> option (list T) with
      | SArray => fun v => Some v
      | _ => fun _ => None
      end v
  end.

Definition as_bytes (p : Payload) : option (list Byte.byte) :=
  match p with
  | existT s v =>
      match s return El T s -> option (list Byte.byte) with
      | SBytes => fun v => Some v
      | _ => fun _ => None
      end v
  end.

(** Writing [theirs] over the beginning of the memory that holds [mine]:
    the extent of the memory does not change. *)
Definition overwrite {A : Type} (mine theirs : list A) : list A :=
  take (length mine) theirs ++ drop (length theirs) mine.

(** Modelled from the spec: the member function
    [bcast(void*, size_t, MpiType, int)] is declared in the header and
    defined elsewhere; the spec has it forward to the native broadcast,
    a collective operation of the processes of the communicator whose
    guarantees are those of the library.  On a process other than the
    root the buffer receives what the root offers; a root that offers a
    buffer of another kind is a mismatched collective. *)
Definition receive (s : Shape) : El T s -> Payload -> option (El T s) :=
  match s return El T s -> Payload -> option (El T s) with
  | SInt64 => fun _ p => as_int64 p
  | SObject => fun _ p => as_object p
  | SArray => fun mine p => overwrite mine <$> as_array p
  | SBytes => fun mine p => overwrite mine <$> as_bytes p
  end.

(** The library as the process of rank [rank] sees it.  The state is the
    list of the payloads the root has offered and this process has not
    received yet.  A broadcast whose root is this process leaves its
    buffer as it is; any other broadcast receives the next payload.
    Only rank queries and broadcasts are answered. *)
Definition process_handler (rank : Z) : Handler T (list Payload) :=
  fun X c pending =>
    match c in Call _ X return option (X * list Payload) with
    | Call_getRank _ => Some (rank, pending)
    | Call_bcast _ s buffer _ _ root =>
        if rank =? root then Some (buffer, pending)
        else
          match pending with
          | p :: rest => b ← receive s buffer p; Some (b, rest)
          | [] => None
          end
    | _ => None
    end.

(** The payloads of the broadcasts in a trace. *)
Definition sent (tr : list (AnyCall T)) : list Payload :=
  omap (fun c : AnyCall T =>
          match projT2 c with
          | Call_bcast _ s buffer _ _ _ => Some (existT s buffer)
          | _ => None
          end) tr.

(** What the root offers in the two broadcasts of the vector overload. *)
Definition offered_by_root (root_vec : list T) : list Payload :=
  [existT SInt64 (to_int64 (size root_vec)); existT SArray root_vec].

(** All processes of a communicator run, the process of rank [r] the
    program [progs !! r]; every broadcast has the root [root].  The
    process of rank [root], if there is one, offers the payloads the
    other processes receive. *)
Definition broadcast_world {R : Type} (root : Z) (progs : list (Prog T R))
    : list (Outcome R) :=
  let offered :=
    match (if 0 <=? root then progs !! Z.to_nat root else None) with
    | Some p => sent (trace (run (process_handler root) p []))
    | None => []
    end in
  imap (fun r p => outcome (run (process_handler (Z.of_nat r)) p offered))
       progs.

(** [comm.bcast(vec, root)] called by every process of the communicator,
    rank [r] holding the vector [vecs !! r]. *)
Definition bcast_vector_world `{Inhabited T} (traits : TypeTraits)
    (cfg : Config) (this : MpiComm) (ty : CppType) (root : Z)
    (vecs : list (list T)) : option (list (Outcome (list T))) :=
  progs ← mapM (fun vec => bcast_vector traits cfg this ty vec root) vecs;
  Some (broadcast_world root progs).

End Broadcast.

End World.

(** ** packaging/pre_build_script.sh *)
Module PreBuildScript.

(** The state the script works on: the shell's variables, the names that
    carry the export attribute, and the files it reads and writes, by
    path.  Lines 6 to 24 (the package installations, and the download of
    bazelisk into the working directory with its move to /usr/bin/bazel)
    are not part of the model, and neither are the variables the shell
    maintains itself, such as [_]. *)
Record Shell : Type := {
  vars : gmap string string;
  exported : gset string;
  fs : gmap string string
}.

(** The commands the script runs, as functions of what they read. *)
Record Tools : Type := {
  (** [envsubst]: the environment and standard input to standard output *)
  envsubst : gmap string string -> string -> string;
  (** [grep "^torch"] on the contents of a file *)
  grep_torch : string -> string;
  (** [sed -i -e s/old/new/g ...]: the substitutions and the contents *)
  sed : list (string * string) -> string -> string;
  (** the three [python -c] one-liners *)
  python_tensorrt_version : option string -> string;
  python_torch_version : string;
  python_torch_path : string
}.

(** [${NAME}]: the empty string when the variable is unset. *)
Definition expand (name : string) (sh : Shell) : string :=
  default "" (vars sh !! name).

(** [NAME=value] *)
Definition assign (name value : string) (sh : Shell) : Shell :=
  {| vars := <[name := value]> (vars sh);
     exported := exported sh;
     fs := fs sh |}.

(** [export NAME=value] *)
Definition export (name value : string) (sh : Shell) : Shell :=
  {| vars := <[name := value]> (vars sh);
     exported := {[name]} ∪ exported sh;
     fs := fs sh |}.

(** The environment a command is started with: the exported variables. *)
Definition environment (sh : Shell) : gmap string string :=
  filter (fun kv : string * string => kv.1 ∈ exported sh) (vars sh).

(** [cat path]: nothing on standard output for a file that is not there. *)
Definition cat (path : string) (sh : Shell) : string :=
  default "" (fs sh !! path).

(** [> path]: the file is created or replaced. *)
Definition redirect (path contents : string) (sh : Shell) : Shell :=
  {| vars := vars sh;
     exported := exported sh;
     fs := <[path := contents]> (fs sh) |}.

(** [${CU_VERSION::4}] *)
Definition cu_prefix (sh : Shell) : string :=
  String.substring 0 4 (expand "CU_VERSION" sh).

(** Lines 14 to 27: the variables. *)
Definition set_variables (t : Tools) (sh : Shell) : Shell :=
  let sh := assign "TORCH_TORCHVISION"
              (grep_torch t (cat "py/requirements.txt" sh)) sh in
  let sh := assign "INDEX_URL"
              ("https://download.pytorch.org/whl/" +:+ expand "CHANNEL" sh
               +:+ "/" +:+ expand "CU_VERSION" sh) sh in
  let sh := assign "TRT_VERSION"
              (python_tensorrt_version t (fs sh !! "dev_dep_versions.yml"))
              sh in
  let sh := export "TORCH_BUILD_NUMBER" (python_torch_version t) sh in
  export "TORCH_INSTALL_PATH" (python_torch_path t) sh.

(** Lines 29 to 35: [sed -i] rewrites pyproject.toml in place when the
    prefix of the CUDA version sorts before "cu12"; without the file it
    fails and writes nothing. *)
Definition replace_dependencies (t : Tools) (sh : Shell) : Shell :=
  if String.ltb (cu_prefix sh) "cu12" then
    match fs sh !! "pyproject.toml" with
    | Some contents =>
        redirect "pyproject.toml"
          (sed t
             [ ("tensorrt-cu12==", "tensorrt-" +:+ cu_prefix sh +:+ "==");
               ("tensorrt-cu12-bindings==",
                "tensorrt-" +:+ cu_prefix sh +:+ "-bindings==");
               ("tensorrt-cu12-libs==",
                "tensorrt-" +:+ cu_prefix sh +:+ "-libs==") ]
             contents) sh
    | None => sh
    end
  else sh.

Definition template : string := "toolchains/ci_workspaces/MODULE.bazel.tmpl".

(** Line 37: [cat toolchains/ci_workspaces/MODULE.bazel.tmpl | envsubst > MODULE.bazel] *)
Definition generate_module (t : Tools) (sh : Shell) : Shell :=
  redirect "MODULE.bazel" (envsubst t (environment sh) (cat template sh)) sh.

(** The state in which line 37 runs. *)
Definition before_generate (t : Tools) (sh : Shell) : Shell :=
  replace_dependencies t (set_variables t sh).

(** The variables lines 14 to 27 assign. *)
Definition assigned_before_generate : list string :=
  ["TORCH_TORCHVISION"; "INDEX_URL"; "TRT_VERSION"; "TORCH_BUILD_NUMBER";
   "TORCH_INSTALL_PATH"].

(** The script; its last line is [export CI_BUILD=1]. *)
Definition pre_build_script (t : Tools) (sh : Shell) : Shell :=
  export "CI_BUILD" "1" (generate_module t (before_generate t sh)).

End PreBuildScript.

(** ** Concrete platforms and inputs for the examples *)
Module Examples.
Import Cpp Runtime Mpi.

(** A 64-bit Linux platform. *)
Definition lp64 : TypeTraits := {|
  is_fundamental_v := fun t =>
    match t with
    | t_float | t_double | t_bool | t_int8_t | t_uint8_t | t_int32_t
    | t_uint32_t | t_int64_t | t_uint64_t | t_char => true
    | t_named "long double" | t_named "short" => true
    | _ => false
    end;
  sizeof := fun t =>
    match remove_cv_t t with
    | t_std_byte | t_bool | t_int8_t | t_uint8_t | t_char
    | t_nv_fp8_e4m3 => 1
    | t_half | t_nv_bfloat16 | t_named "short" => 2
    | t_float | t_int32_t | t_uint32_t => 4
    | t_double | t_int64_t | t_uint64_t => 8
    | _ => 16
    end;
  max_size := fun t => 2 ^ 60
|}.

Definition all_enabled : Config :=
  {| ENABLE_FP8 := true; ENABLE_BF16 := true |}.

Definition none_enabled : Config :=
  {| ENABLE_FP8 := false; ENABLE_BF16 := false |}.

(** The values of one MPI implementation. *)
Definition mpi_values : NativeConstants := {|
  MPI_SUCCESS := 0;
  MPI_THREAD_SINGLE := 0;
  MPI_THREAD_FUNNELED := 1;
  MPI_THREAD_SERIALIZED := 2;
  MPI_THREAD_MULTIPLE := 3
|}.

Definition owning : MpiComm := {| mComm := 91; mFreeComm := true |}.
Definition borrowed : MpiComm := {| mComm := 91; mFreeComm := false |}.

Definition gpu_buffer : IBuffer :=
  {| getMemoryType := kGPU;
     data := [Byte.x01; Byte.x02];
     getSizeInBytes := 2 |}.

Definition host_buffer : IBuffer :=
  {| getMemoryType := kOTHER 1;
     data := [Byte.x01; Byte.x02];
     getSizeInBytes := 2 |}.

(** A library in which every call comes back and leaves the buffers as
    they are; [MPI_Wait] and [MPI_Comm_free] return [code]. *)
Definition echo (T : Type) (rank code : Z) : Handler T unit :=
  fun X c st =>
    match c in Call _ X return option (X * unit) with
    | Call_getRank _ => Some (rank, st)
    | Call_bcastAsync _ _ _ _ _ _ => Some ({| mRequest := 5 |}, st)
    | Call_bcast _ _ buffer _ _ _ => Some (buffer, st)
    | Call_send _ _ _ _ _ _ _ => Some (tt, st)
    | Call_recv _ _ buffer _ _ source tag =>
        Some (({| MPI_SOURCE := source; MPI_TAG := tag; MPI_ERROR := 0 |},
               buffer), st)
    | Call_MPI_Wait request => Some ((code, request), st)
    | Call_MPI_Comm_free _ => Some (code, st)
    end.

(** The same library, except that the broadcast of an [int64_t] leaves
    [vecSize] in the buffer. *)
Definition answering (T : Type) (rank code vecSize : Z) : Handler T unit :=
  fun X c st =>
    match c in Call _ X return option (X * unit) with
    | Call_getRank _ => Some (rank, st)
    | Call_bcastAsync _ _ _ _ _ _ => Some ({| mRequest := 5 |}, st)
    | Call_bcast _ s buffer _ _ _ =>
        Some (match s return El T s -> El T s with
              | SInt64 => fun _ => vecSize
              | _ => fun b => b
              end buffer, st)
    | Call_send _ _ _ _ _ _ _ => Some (tt, st)
    | Call_recv _ _ buffer _ _ source tag =>
        Some (({| MPI_SOURCE := source; MPI_TAG := tag; MPI_ERROR := 0 |},
               buffer), st)
    | Call_MPI_Wait request => Some ((code, request), st)
    | Call_MPI_Comm_free _ => Some (code, st)
    end.

(** A stand-in for [envsubst] that replaces the references of the form
    [${NAME}]; an unset variable gives the empty string. *)
Inductive Scan : Type :=
| Text
| Dollar
| Name (acc : string).

Fixpoint substitute (env : gmap string string) (st : Scan) (s : string)
    : string :=
  match s with
  | EmptyString =>
      match st with
      | Text => ""
      | Dollar => "$"
      | Name acc => "${" +:+ acc
      end
  | String c rest =>
      match st with
      | Text =>
          if Ascii.eqb c "$"%char then substitute env Dollar rest
          else String c (substitute env Text rest)
      | Dollar =>
          if Ascii.eqb c "{"%char then substitute env (Name "") rest
          else if Ascii.eqb c "$"%char then String "$" (substitute env Dollar rest)
          else String "$" (String c (substitute env Text rest))
      | Name acc =>
          if Ascii.eqb c "}"%char
          then default "" (env !! acc) +:+ substitute env Text rest
          else substitute env (Name (acc +:+ String c "")) rest
      end
  end.

Definition tools : PreBuildScript.Tools := {|
  PreBuildScript.envsubst := fun env text => substitute env Text text;
  PreBuildScript.grep_torch := fun contents => contents;
  PreBuildScript.sed := fun _ contents => contents;
  PreBuildScript.python_tensorrt_version := fun _ => "10.3.0";
  PreBuildScript.python_torch_version := "2.5.0";
  PreBuildScript.python_torch_path := "/opt/torch"
|}.

Definition ci_shell : PreBuildScript.Shell := {|
  PreBuildScript.vars := {[ "CU_VERSION" := "cu118"; "CHANNEL" := "nightly" ]};
  PreBuildScript.exported := {[ "CU_VERSION"; "CHANNEL" ]};
  PreBuildScript.fs :=
    {[ PreBuildScript.template := "torch = ${TORCH_INSTALL_PATH} ${CI_BUILD}";
       "pyproject.toml" := "tensorrt-cu12==10.3.0" ]}
|}.

End Examples.

(* ===================================================================== *)
(** * Part II: theorems *)
(* ===================================================================== *)

Import Cpp Runtime Mpi.

(** ** The table of type tags *)

Lemma MpiTypeConverter_supported (cfg : Config) (t : CppType) :
  In t (supported_types cfg) <-> is_Some (MpiTypeConverter cfg t).
Proof.
  unfold supported_types. destruct cfg as [fp8 bf16]. split.
  - intros Hin. apply in_app_or in Hin as [Hin | Hin].
    + simpl in Hin. repeat (destruct Hin as [<- | Hin]; [simpl; eauto |]).
      destruct Hin.
    + apply in_app_or in Hin as [Hin | Hin]; simpl in Hin.
      * destruct fp8; simpl in Hin; [| destruct Hin].
        destruct Hin as [<- | []]. simpl. eauto.
      * destruct bf16; simpl in Hin; [| destruct Hin].
        destruct Hin as [<- | []]. simpl. eauto.
  - intros [m Hm].
    destruct t; simpl in Hm; try discriminate;
      try (apply in_or_app; left; simpl; tauto).
    + destruct fp8; [| discriminate].
      apply in_or_app; right. apply in_or_app; left. simpl. tauto.
    + destruct bf16; [| discriminate].
      apply in_or_app; right. apply in_or_app; right. simpl. tauto.
Qed.

Lemma MpiTypeConverter_inj (cfg : Config) (t1 t2 : CppType) (m : MpiType) :
  MpiTypeConverter cfg t1 = Some m ->
  MpiTypeConverter cfg t2 = Some m ->
  t1 = t2.
Proof.
  destruct cfg as [fp8 bf16]. intros H1 H2.
  destruct t1; simpl in H1; try discriminate;
    try (destruct fp8; [| discriminate]);
    try (destruct bf16; [| discriminate]);
    injection H1 as <-;
    destruct t2; simpl in H2; try discriminate; try reflexivity;
    try (destruct fp8; discriminate);
    try (destruct bf16; discriminate).
Qed.

(** C7: [MpiTypeConverter] assigns to every supported type (the twelve
    unconditional ones and, when enabled, fp8 and bf16) exactly one
    [MpiType], and no two distinct supported types get the same one. *)
Theorem MpiTypeConverter_table_injective (cfg : Config) (t1 t2 : CppType) :
  In t1 (supported_types cfg) ->
  In t2 (supported_types cfg) ->
  exists m1 m2 : MpiType,
    MpiTypeConverter cfg t1 = Some m1 /\
    MpiTypeConverter cfg t2 = Some m2 /\
    (forall m : MpiType, MpiTypeConverter cfg t1 = Some m -> m = m1) /\
    (m1 = m2 -> t1 = t2).
Proof.
  intros H1 H2.
  apply MpiTypeConverter_supported in H1 as [m1 H1].
  apply MpiTypeConverter_supported in H2 as [m2 H2].
  exists m1, m2. repeat split; try assumption.
  - intros m Hm. congruence.
  - intros ->. eapply MpiTypeConverter_inj; eassumption.
Qed.

Lemma MpiTypeConverter_table_injective_witness :
  In t_float (supported_types Examples.all_enabled) /\
  In t_nv_bfloat16 (supported_types Examples.all_enabled) /\
  exists m1 m2 : MpiType,
    MpiTypeConverter Examples.all_enabled t_float = Some m1 /\
    MpiTypeConverter Examples.all_enabled t_nv_bfloat16 = Some m2 /\
    (forall m : MpiType,
        MpiTypeConverter Examples.all_enabled t_float = Some m -> m = m1) /\
    (m1 = m2 -> t_float = t_nv_bfloat16).
Proof.
  assert (H1 : In t_float (supported_types Examples.all_enabled))
    by (vm_compute; tauto).
  assert (H2 : In t_nv_bfloat16 (supported_types Examples.all_enabled))
    by (vm_compute; tauto).
  split; [exact H1 |]. split; [exact H2 |].
  exact (MpiTypeConverter_table_injective Examples.all_enabled
           t_float t_nv_bfloat16 H1 H2).
Defined.

(** ** Equality of communicators *)

(** C10: [a == b] holds exactly when the two handles are equal, whatever the
    ownership flags, and [a != b] is its negation. *)
Theorem MpiComm_equality_by_handle (a b : MpiComm) :
  (eq_op a b = true <-> mComm a = mComm b) /\
  (ne_op a b = true <-> eq_op a b <> true) /\
  eq_op {| mComm := mComm a; mFreeComm := true |}
        {| mComm := mComm a; mFreeComm := false |} = true.
Proof.
  unfold ne_op, eq_op. simpl. repeat split.
  - apply Z.eqb_eq.
  - apply Z.eqb_eq.
  - intros Hn He. rewrite Z.eqb_sym in Hn. rewrite He in Hn. discriminate.
  - intros Hn. rewrite Z.eqb_sym.
    destruct (mComm a =? mComm b); [contradiction Hn |]; reflexivity.
  - apply Z.eqb_refl.
Qed.

Example owning_equals_borrowed :
  eq_op Examples.owning Examples.borrowed = true /\
  ne_op Examples.owning Examples.borrowed = false.
Proof. split; reflexivity. Qed.



(** ** Programs that make one call *)

Lemma run_call_trace {T S X R : Type} (h : Handler T S) (c : Call T X)
    (k : X -> Prog T R) (st : S) :
  (forall (x : X) (st' : S), trace (run h (k x) st') = []) ->
  trace (run h (Vis c k) st) = [any c].
Proof.
  intros Hk. simpl. destruct (h X c st) as [[x st'] |]; simpl; [| reflexivity].
  rewrite Hk. reflexivity.
Qed.

Lemma run_call_only {T S X : Type} (h : Handler T S) (c : Call T X) (st : S) :
  trace (run h (call c) st) = [any c].
Proof. unfold call. apply run_call_trace. reflexivity. Qed.

Lemma run_discard_trace {T S R : Type} (h : Handler T S) (p : Prog T R)
    (st : S) :
  trace (run h (discard p) st) = trace (run h p st).
Proof.
  unfold discard. revert st.
  induction p as [r | msg | exn | X c k IH]; intros st; simpl; try reflexivity.
  destruct (h X c st) as [[x st'] |]; simpl; [| reflexivity].
  rewrite IH. reflexivity.
Qed.

Lemma run_discard_returned {T S R : Type} (h : Handler T S) (p : Prog T R)
    (st : S) :
  outcome (run h (discard p) st) = Returned tt <->
  exists r : R, outcome (run h p st) = Returned r.
Proof.
  unfold discard. revert st.
  induction p as [r | msg | exn | X c k IH]; intros st; simpl.
  - split; eauto.
  - split; [discriminate | intros [r Hr]; discriminate].
  - split; [discriminate | intros [r Hr]; discriminate].
  - destruct (h X c st) as [[x st'] |]; simpl; [apply IH |].
    split; [discriminate | intros [r Hr]; discriminate].
Qed.

(** ** The memory-type check of the IBuffer overloads *)

(** C6: for a buffer in GPU memory the IBuffer overloads of [bcastAsync],
    [send] and [recv] abort on their [TLLM_CHECK] before any call is made,
    while the IBuffer overload of [bcast] checks nothing: for every buffer
    its first and only call is the forwarding one. *)
Theorem IBuffer_overloads_memory_check {T S : Type} (this : MpiComm)
    (buf : IBuffer) (root dest source tag : Z) (h : Handler T S) (st : S) :
  getMemoryType buf = kGPU ->
  (trace (run h (bcastAsync_IBuffer this buf root) st) = [] /\
   outcome (run h (bcastAsync_IBuffer this buf root) st)
   = Aborted "buf.getMemoryType() != runtime::MemoryType::kGPU") /\
  (trace (run h (send_IBuffer this buf dest tag) st) = [] /\
   outcome (run h (send_IBuffer this buf dest tag) st)
   = Aborted "buf.getMemoryType() != runtime::MemoryType::kGPU") /\
  (trace (run h (recv_IBuffer this buf source tag) st) = [] /\
   outcome (run h (recv_IBuffer this buf source tag) st)
   = Aborted "buf.getMemoryType() != runtime::MemoryType::kGPU") /\
  (forall any_buf : IBuffer,
      trace (run h (bcast_IBuffer this any_buf root) st)
      = [any (Call_bcast this SBytes (data any_buf)
                (getSizeInBytes any_buf) kBYTE root)]).
Proof.
  intros Hgpu.
  unfold bcastAsync_IBuffer, send_IBuffer, recv_IBuffer, not_kGPU.
  rewrite Hgpu. simpl. repeat split.
  intros any_buf.
  match goal with
  | |- context [h ?X ?c st] => destruct (h X c st) as [[d st'] |]
  end; reflexivity.
Qed.

Lemma IBuffer_overloads_memory_check_witness :
  getMemoryType Examples.gpu_buffer = kGPU /\
  trace (run (Examples.echo Z 0 0)
           (send_IBuffer Examples.owning Examples.gpu_buffer 1 7) tt) = [] /\
  trace (run (Examples.echo Z 0 0)
           (bcast_IBuffer Examples.owning Examples.gpu_buffer 0) tt)
  = [any (Call_bcast Examples.owning SBytes [Byte.x01; Byte.x02] 2 kBYTE 0)].
Proof.
  assert (Hgpu : getMemoryType Examples.gpu_buffer = kGPU) by reflexivity.
  pose proof (IBuffer_overloads_memory_check (T := Z) Examples.owning
                Examples.gpu_buffer 0 1 1 7 (Examples.echo Z 0 0) tt Hgpu)
    as (_ & (Hsend & _) & _ & Hbcast).
  split; [exact Hgpu |]. split; [exact Hsend |].
  exact (Hbcast Examples.gpu_buffer).
Defined.

(** ** The typed helpers *)

(** C4: [bcastValue], [send(T const&)] and [recv(T&)] dispatch alike.  When
    [T] without its cv-qualifiers is fundamental, each makes one call that
    transfers one element tagged with [MpiTypeConverter]'s value for that
    type; otherwise each makes one call that transfers [sizeof(T)] elements
    tagged [kBYTE]. *)
Theorem typed_helpers_dispatch {T S : Type} (traits : TypeTraits)
    (cfg : Config) (this : MpiComm) (ty : CppType) (value : T)
    (root dest source tag count : Z) (dtype : MpiType)
    (h : Handler T S) (st : S) :
  (is_fundamental_v traits (remove_cv_t ty) = true /\
   MpiTypeConverter cfg (remove_cv_t ty) = Some dtype /\ count = 1) \/
  (is_fundamental_v traits (remove_cv_t ty) = false /\
   dtype = kBYTE /\ count = sizeof traits ty) ->
  (exists p, bcastValue traits cfg this ty value root = Some p /\
     trace (run h p st) = [any (Call_bcast this SObject value count dtype root)])
  /\
  (exists p, send_value traits cfg this ty value dest tag = Some p /\
     trace (run h p st)
     = [any (Call_send this SObject value count dtype dest tag)])
  /\
  (exists p, recv_value traits cfg this ty value source tag = Some p /\
     trace (run h p st)
     = [any (Call_recv this SObject value count dtype source tag)]).
Proof.
  unfold bcastValue, send_value, recv_value.
  intros [(Hf & Hc & ->) | (Hf & -> & ->)]; rewrite Hf; [rewrite Hc |];
    simpl; repeat split; eexists; (split; [reflexivity |]);
    apply run_call_only.
Qed.

Lemma typed_helpers_dispatch_witness :
  (exists p, bcastValue Examples.lp64 Examples.none_enabled Examples.owning
               (t_const t_int32_t) 42 0 = Some p /\
     trace (run (Examples.echo Z 0 0) p tt)
     = [any (Call_bcast Examples.owning SObject 42 1 kINT32 0)]) /\
  (exists p, send_value Examples.lp64 Examples.none_enabled Examples.owning
               t_half 42 3 9 = Some p /\
     trace (run (Examples.echo Z 0 0) p tt)
     = [any (Call_send Examples.owning SObject 42 2 kBYTE 3 9)]).
Proof.
  split.
  - refine (proj1 (typed_helpers_dispatch Examples.lp64 Examples.none_enabled
                     Examples.owning (t_const t_int32_t) 42 0 0 0 0 1 kINT32
                     (Examples.echo Z 0 0) tt _)).
    left. repeat split; reflexivity.
  - refine (proj1 (proj2 (typed_helpers_dispatch Examples.lp64
                     Examples.none_enabled Examples.owning t_half 42 0 3 0 9
                     2 kBYTE (Examples.echo Z 0 0) tt _))).
    right. repeat split; reflexivity.
Defined.

(** ** Return codes of native calls *)

Lemma TLLM_MPI_CHECK_aborts {T S : Type} (mpi : NativeConstants)
    (h : Handler T S) (st : S) (e : Z) :
  e <> MPI_SUCCESS mpi ->
  outcome (run h (TLLM_MPI_CHECK mpi (Ret e)) st)
  = Aborted "Failed: MPI error %s:%d '%d'".
Proof.
  intros Hne. unfold TLLM_MPI_CHECK, TLLM_CHECK_WITH_INFO. cbn [bind].
  apply Z.eqb_neq in Hne. rewrite Hne. reflexivity.
Qed.

(** C1, at the call site that breaks it: when [MPI_Wait] returns a code
    other than [MPI_SUCCESS], [MpiRequest::wait] returns normally, whereas
    the same code under [TLLM_MPI_CHECK] aborts the process with the
    diagnostic. *)
Theorem MpiRequest_wait_ignores_return_code {T S : Type}
    (mpi : NativeConstants) (h : Handler T S) (st st' : S) (r : MpiRequest)
    (e : Z) (request : MPI_Request) :
  h _ (Call_MPI_Wait (mRequest r)) st = Some ((e, request), st') ->
  e <> MPI_SUCCESS mpi ->
  outcome (run h (MpiRequest_wait r) st) = Returned {| mRequest := request |}
  /\ trace (run h (MpiRequest_wait r) st) = [any (Call_MPI_Wait (mRequest r))]
  /\ outcome (run h (TLLM_MPI_CHECK mpi (Ret e)) st')
     = Aborted "Failed: MPI error %s:%d '%d'".
Proof.
  intros Hh Hne. unfold MpiRequest_wait, call. cbn [bind run].
  rewrite Hh. cbn. repeat split. apply TLLM_MPI_CHECK_aborts. exact Hne.
Qed.

Lemma MpiRequest_wait_ignores_return_code_witness :
  outcome (run (Examples.echo Z 0 19) (MpiRequest_wait {| mRequest := 5 |}) tt)
  = Returned {| mRequest := 5 |}
  /\ trace (run (Examples.echo Z 0 19) (MpiRequest_wait {| mRequest := 5 |}) tt)
     = [any (Call_MPI_Wait 5)]
  /\ outcome (run (Examples.echo Z 0 19)
                (TLLM_MPI_CHECK Examples.mpi_values (Ret 19)) tt)
     = Aborted "Failed: MPI error %s:%d '%d'".
Proof.
  refine (MpiRequest_wait_ignores_return_code Examples.mpi_values
            (Examples.echo Z 0 19) tt tt {| mRequest := 5 |} 19 5 _ _).
  - reflexivity.
  - simpl. lia.
Defined.

(** ** The state of a communicator object *)

Lemma MpiComm_members_const :
  forall d : Declaration,
    In d MpiComm_members ->
    may_modify d = true ->
    decl_kind d = Constructor \/ decl_kind d = Move \/ decl_kind d = Destructor.
Proof.
  intros d Hin Hm. unfold MpiComm_members in Hin. simpl in Hin.
  repeat (destruct Hin as [<- | Hin];
          [simpl in *; first [discriminate | tauto] |]).
  destruct Hin.
Qed.

(** C5: an [MpiComm] is its handle and its ownership flag and nothing else;
    destroying it releases the handle exactly when the flag is set; and no
    member function other than a constructor, a move and the destructor may
    change a data member (all the others are const or static). *)
Theorem MpiComm_state_and_ownership {T S : Type} (mpi : NativeConstants)
    (this : MpiComm) (h : Handler T S) (st : S) :
  this = {| mComm := mComm this; mFreeComm := mFreeComm this |} /\
  trace (run h (MpiComm_destructor mpi this) st)
  = (if mFreeComm this then [any (Call_MPI_Comm_free (mComm this))] else []) /\
  (existsb (releases (mComm this))
     (trace (run h (MpiComm_destructor mpi this) st)) = true
   <-> mFreeComm this = true) /\
  (forall d : Declaration,
      In d MpiComm_members ->
      may_modify d = true ->
      decl_kind d = Constructor \/ decl_kind d = Move \/
      decl_kind d = Destructor).
Proof.
  assert (Htrace : trace (run h (MpiComm_destructor mpi this) st)
            = (if mFreeComm this
               then [any (Call_MPI_Comm_free (mComm this))] else [])).
  { unfold MpiComm_destructor, MPICHECK, TLLM_MPI_CHECK, TLLM_CHECK_WITH_INFO,
      call.
    destruct (mFreeComm this); [| reflexivity].
    cbn [bind]. apply run_call_trace. intros e st'.
    destruct (e =? MPI_SUCCESS mpi); reflexivity. }
  split; [destruct this; reflexivity |].
  split; [exact Htrace |].
  split; [| exact MpiComm_members_const].
  rewrite Htrace. destruct (mFreeComm this).
  - cbn [existsb releases any projT2]. rewrite Z.eqb_refl. tauto.
  - split; discriminate.
Qed.

(** ** The level of thread support *)

(** C8: [initialize] receives [THREAD_FUNNELED] when the call site gives no
    argument and the written argument otherwise; it is the one function the
    header declares that takes an [MpiThreadSupport]; and the value of each
    enumerator is the native constant of the same name. *)
Theorem thread_support_at_initialize (mpi : NativeConstants) :
  initialize_threadMode None = THREAD_FUNNELED /\
  (forall m : MpiThreadSupport, initialize_threadMode (Some m) = m) /\
  (forall d : Declaration,
      In d header_declarations ->
      takes P_MpiThreadSupport d = true ->
      d = {| decl_class := ""; decl_name := "initialize";
             decl_kind := FreeFunction;
             decl_params := [P_MpiThreadSupport] |}) /\
  MpiThreadSupport_value mpi THREAD_SINGLE = MPI_THREAD_SINGLE mpi /\
  MpiThreadSupport_value mpi THREAD_FUNNELED = MPI_THREAD_FUNNELED mpi /\
  MpiThreadSupport_value mpi THREAD_SERIALIZED = MPI_THREAD_SERIALIZED mpi /\
  MpiThreadSupport_value mpi THREAD_MULTIPLE = MPI_THREAD_MULTIPLE mpi.
Proof.
  split; [reflexivity |]. split; [reflexivity |].
  split; [| repeat split].
  intros d Hin Ht. unfold header_declarations, MpiComm_members in Hin.
  simpl in Hin.
  repeat (destruct Hin as [<- | Hin];
          [first [discriminate Ht | reflexivity] |]).
  destruct Hin.
Qed.

(** ** The generated build-module file *)

Import PreBuildScript.

Lemma fs_set_variables (t : Tools) (sh : Shell) :
  fs (set_variables t sh) = fs sh.
Proof. reflexivity. Qed.

Lemma fs_replace_dependencies (t : Tools) (sh : Shell) (path : string) :
  path <> "pyproject.toml" ->
  fs (replace_dependencies t sh) !! path = fs sh !! path.
Proof.
  intros Hne. unfold replace_dependencies.
  destruct (String.ltb (cu_prefix sh) "cu12"); [| reflexivity].
  destruct (fs sh !! "pyproject.toml") as [contents |]; [| reflexivity].
  simpl. rewrite lookup_insert_ne; [reflexivity | congruence].
Qed.

(** C9: when the template is there, the script leaves in MODULE.bazel the
    output of [envsubst], run in the environment of that line on the
    contents of toolchains/ci_workspaces/MODULE.bazel.tmpl, and the template
    has the contents it had. *)
Theorem module_bazel_from_template (t : Tools) (sh : Shell)
    (contents : string) :
  fs sh !! template = Some contents ->
  fs (pre_build_script t sh) !! "MODULE.bazel"
  = Some (envsubst t (environment (before_generate t sh)) contents) /\
  fs (pre_build_script t sh) !! template = Some contents.
Proof.
  intros Htmpl.
  assert (Hbefore : fs (before_generate t sh) !! template = Some contents).
  { unfold before_generate. rewrite fs_replace_dependencies.
    - rewrite fs_set_variables. exact Htmpl.
    - unfold template. discriminate. }
  unfold pre_build_script, generate_module. simpl. split.
  - rewrite lookup_insert_eq. unfold cat. rewrite Hbefore. reflexivity.
  - rewrite lookup_insert_ne; [exact Hbefore |].
    unfold template. discriminate.
Qed.

Lemma module_bazel_from_template_witness :
  fs Examples.ci_shell !! template
  = Some "torch = ${TORCH_INSTALL_PATH} ${CI_BUILD}" /\
  fs (pre_build_script Examples.tools Examples.ci_shell) !! "MODULE.bazel"
  = Some "torch = /opt/torch " /\
  fs (pre_build_script Examples.tools Examples.ci_shell) !! template
  = Some "torch = ${TORCH_INSTALL_PATH} ${CI_BUILD}".
Proof.
  assert (Htmpl : fs Examples.ci_shell !! template
                  = Some "torch = ${TORCH_INSTALL_PATH} ${CI_BUILD}")
    by (vm_compute; reflexivity).
  destruct (module_bazel_from_template Examples.tools Examples.ci_shell
              _ Htmpl) as [Hout Hin].
  split; [exact Htmpl |]. split; [| exact Hin].
  rewrite Hout. vm_compute. reflexivity.
Defined.

(** ** The broadcast of a vector *)

Import World.

Lemma size_t_of_int64 (n : Z) :
  0 <= n < 2 ^ 64 -> to_size_t (to_int64 n) = n.
Proof.
  intros Hn. unfold to_size_t, to_int64.
  rewrite Zminus_mod_idemp_l.
  replace (n + 2 ^ 63 - 2 ^ 63) with n by lia.
  apply Z.mod_small. exact Hn.
Qed.

Lemma overwrite_same_length {A : Type} (mine theirs : list A) :
  length mine = length theirs -> overwrite mine theirs = theirs.
Proof.
  intros Hlen. unfold overwrite. rewrite Hlen.
  rewrite firstn_all. rewrite drop_ge by lia. apply app_nil_r.
Qed.

Lemma mapM_total {A B : Type} (f : A -> option B) (g : A -> B) (l : list A) :
  (forall x : A, f x = Some (g x)) -> mapM f l = Some (g <$> l).
Proof.
  intros Hf. apply mapM_Some_2.
  induction l as [| x l IH]; simpl; constructor; auto.
Qed.

Section Vector.
Context {T : Type} `{Inhabited T}.
Variable traits : TypeTraits.
Variable this : MpiComm.
Variable ty : CppType.
Variable root : Z.

Lemma bcast_vector_program (cfg : Config) :
  (is_fundamental_v traits (remove_cv_t ty) = true ->
   is_Some (MpiTypeConverter cfg (remove_cv_t ty))) ->
  exists (count : list T -> Z) (dtype : MpiType),
    forall vec : list T,
      bcast_vector traits cfg this ty vec root
      = Some (vector_program traits this ty root count dtype vec).
Proof.
  intros Hwf. unfold bcast_vector.
  destruct (is_fundamental_v traits (remove_cv_t ty)).
  - destruct Hwf as [dtype ->]; [reflexivity |].
    exists size, dtype. reflexivity.
  - exists (fun vec => to_size_t (size vec * sizeof traits ty)), kBYTE.
    reflexivity.
Qed.

Variable count : list T -> Z.
Variable dtype : MpiType.
Variable root_vec : list T.
Hypothesis Hsize : size root_vec <= max_size traits ty.
Hypothesis Hmax : max_size traits ty < 2 ^ 64.

Lemma root_resize :
  vector_resize traits ty (to_size_t (to_int64 (size root_vec))) root_vec
  = Ret root_vec.
Proof using Hsize Hmax.
  unfold vector_resize. rewrite size_t_of_int64 by (unfold size in *; lia).
  replace (max_size traits ty <? size root_vec) with false
    by (symmetry; apply Z.ltb_ge; exact Hsize).
  unfold size. rewrite Nat2Z.id. rewrite resize_all. reflexivity.
Qed.

Lemma peer_resize (vec : list T) :
  exists vec' : list T,
    vector_resize traits ty (to_size_t (to_int64 (size root_vec))) vec
    = Ret vec' /\ length vec' = length root_vec.
Proof using Hsize Hmax.
  unfold vector_resize. rewrite size_t_of_int64 by (unfold size in *; lia).
  replace (max_size traits ty <? size root_vec) with false
    by (symmetry; apply Z.ltb_ge; exact Hsize).
  eexists. split; [reflexivity |].
  rewrite length_resize. unfold size. apply Nat2Z.id.
Qed.

Lemma run_root (pending : list Payload) :
  run (process_handler root)
      (vector_program traits this ty root count dtype root_vec) pending
  = {| trace := [any (Call_getRank this);
                 any (Call_bcast this SInt64 (to_int64 (size root_vec)) 1
                        kINT64 root);
                 any (Call_bcast this SArray root_vec (count root_vec) dtype
                        root)];
       final := pending;
       outcome := Returned root_vec |}.
Proof using Hsize Hmax.
  unfold vector_program, bcast_vector_size, call.
  cbn [bind run process_handler]. rewrite !Z.eqb_refl.
  cbn [bind run process_handler trace final outcome].
  rewrite root_resize.
  cbn [bind run process_handler trace final outcome].
  rewrite !Z.eqb_refl. reflexivity.
Qed.

Lemma run_peer (rank : Z) (vec : list T) :
  rank <> root ->
  outcome (run (process_handler rank)
             (vector_program traits this ty root count dtype vec)
             (offered_by_root root_vec))
  = Returned root_vec.
Proof using Hsize Hmax.
  intros Hne. apply Z.eqb_neq in Hne.
  unfold vector_program, bcast_vector_size, call, offered_by_root.
  cbn [bind run process_handler]. rewrite !Hne.
  cbn [bind run process_handler trace final outcome receive as_int64 mbind
       option_bind].
  destruct (peer_resize vec) as (vec' & -> & Hlen).
  cbn [bind run process_handler trace final outcome receive as_array mbind
       option_bind fmap option_fmap option_map].
  rewrite Hne.
  cbn [bind run process_handler trace final outcome receive as_array mbind
       option_bind fmap option_fmap option_map].
  rewrite overwrite_same_length by exact Hlen. reflexivity.
Qed.

End Vector.

(** C3: when every process of the communicator calls the vector overload of
    [bcast] with the same root, an existing rank whose vector is no larger
    than the vector type's [max_size()], the call returns on every process
    and leaves there a vector of the size the root's vector had. *)
Theorem bcast_vector_sizes {T : Type} `{Inhabited T} (traits : TypeTraits)
    (cfg : Config) (this : MpiComm) (ty : CppType) (root : Z)
    (vecs : list (list T)) (root_vec : list T) :
  (is_fundamental_v traits (remove_cv_t ty) = true ->
   is_Some (MpiTypeConverter cfg (remove_cv_t ty))) ->
  0 <= root ->
  vecs !! Z.to_nat root = Some root_vec ->
  size root_vec <= max_size traits ty ->
  max_size traits ty < 2 ^ 64 ->
  exists outs : list (Outcome (list T)),
    bcast_vector_world traits cfg this ty root vecs = Some outs /\
    length outs = length vecs /\
    forall (rank : nat) (o : Outcome (list T)),
      outs !! rank = Some o ->
      exists vec : list T,
        o = Returned vec /\ length vec = length root_vec.
Proof.
  intros Hwf Hroot Hlookup Hsize Hmax.
  destruct (bcast_vector_program (T := T) traits this ty root cfg Hwf)
    as (count & dtype & Hprog).
  unfold bcast_vector_world.
  rewrite (mapM_total _ (vector_program traits this ty root count dtype))
    by exact Hprog.
  cbn [mbind option_bind]. eexists. split; [reflexivity |].
  unfold broadcast_world. split.
  { rewrite length_imap, length_fmap. reflexivity. }
  intros rank o Ho.
  replace (0 <=? root) with true in Ho by (symmetry; apply Z.leb_le; lia).
  rewrite list_lookup_fmap, Hlookup in Ho. cbn [fmap option_fmap option_map] in Ho.
  rewrite (run_root traits this ty root count dtype root_vec Hsize Hmax) in Ho.
  cbn [trace sent omap any projT2] in Ho.
  rewrite list_lookup_imap, list_lookup_fmap in Ho.
  destruct (vecs !! rank) as [vec |] eqn:Hvec; [| discriminate Ho].
  cbn [fmap option_fmap option_map] in Ho.
  apply (inj Some) in Ho. subst o.
  exists root_vec. split; [| reflexivity].
  destruct (Z.eq_dec (Z.of_nat rank) root) as [Heq | Hne].
  - assert (rank = Z.to_nat root) as -> by lia.
    assert (vec = root_vec) as -> by congruence.
    rewrite Z2Nat.id by lia.
    rewrite (run_root traits this ty root count dtype root_vec Hsize Hmax).
    reflexivity.
  - apply (run_peer traits this ty root count dtype root_vec Hsize Hmax).
    exact Hne.
Qed.

Lemma bcast_vector_sizes_witness :
  exists outs : list (Outcome (list Z)),
    bcast_vector_world Examples.lp64 Examples.none_enabled Examples.owning
      t_int32_t 1 [[1; 2; 3]; [4; 5]; []; [1; 1; 1; 1; 1]] = Some outs /\
    length outs = 4%nat /\
    forall (rank : nat) (o : Outcome (list Z)),
      outs !! rank = Some o ->
      exists vec : list Z, o = Returned vec /\ length vec = 2%nat.
Proof.
  apply (bcast_vector_sizes Examples.lp64 Examples.none_enabled
           Examples.owning t_int32_t 1
           [[1; 2; 3]; [4; 5]; []; [1; 1; 1; 1; 1]] [4; 5]).
  - intros _. vm_compute. eauto.
  - lia.
  - reflexivity.
  - vm_compute. discriminate.
  - vm_compute. reflexivity.
Defined.


(** ** One forwarding call per member function, but for the vector overload *)

(** C2 as the spec has it fails twice.  The vector overload of [bcast],
    called with a vector of three [int32_t] on rank 0 as root, makes three
    calls, two of them communication calls: a length-prefix exchange.  And
    the IBuffer overload of [send], called with a buffer in GPU memory,
    makes no call at all: the check in front of the forwarding call is
    control flow around it. *)
Lemma wrapper_methods_not_single_call :
  (~ single_forwarding_call Examples.lp64 Examples.none_enabled
       Examples.owning (m_bcast_vector t_int32_t [1; 2; 3] 0)) /\
  (~ single_forwarding_call (T := Z) Examples.lp64 Examples.none_enabled
       Examples.owning (m_send_IBuffer Examples.gpu_buffer 1 7)) /\
  communication_calls
    (trace (run (Examples.echo Z 0 0)
              (vector_program Examples.lp64 Examples.owning t_int32_t 0
                 size kINT32 [1; 2; 3]) tt)) = 2%nat /\
  trace (run (Examples.echo Z 0 0)
           (send_IBuffer Examples.owning Examples.gpu_buffer 1 7) tt) = [].
Proof.
  split; [| split; [| split; reflexivity]].
  - intros Hclaim.
    destruct (Hclaim unit (Examples.echo Z 0 0) tt _ eq_refl) as [Hlen _].
    vm_compute in Hlen. discriminate Hlen.
  - intros Hclaim.
    destruct (Hclaim unit (Examples.echo Z 0 0) tt _ eq_refl) as [Hlen _].
    vm_compute in Hlen. discriminate Hlen.
Qed.

Lemma bcast_vector_inv {T : Type} `{Inhabited T} (traits : TypeTraits)
    (cfg : Config) (this : MpiComm) (ty : CppType) (vec : list T) (root : Z)
    (p : Prog T (list T)) :
  bcast_vector traits cfg this ty vec root = Some p ->
  exists (count : list T -> Z) (dtype : MpiType),
    p = vector_program traits this ty root count dtype vec.
Proof.
  unfold bcast_vector. intros Hp.
  destruct (is_fundamental_v traits (remove_cv_t ty)).
  - destruct (MpiTypeConverter cfg (remove_cv_t ty)) as [dtype |];
      [| discriminate].
    injection Hp as <-. exists size, dtype. reflexivity.
  - injection Hp as <-.
    exists (fun vec => to_size_t (size vec * sizeof traits ty)), kBYTE.
    reflexivity.
Qed.

Lemma vector_program_calls {T S : Type} `{Inhabited T} (traits : TypeTraits)
    (this : MpiComm) (ty : CppType) (root : Z) (count : list T -> Z)
    (dtype : MpiType) (vec : list T) (h : Handler T S) (st : S) :
  let r := run h (vector_program traits this ty root count dtype vec) st in
  (communication_calls (trace r) <= 2)%nat /\
  ((exists v : list T, outcome r = Returned v) ->
   exists (vecSize : Z) (vec' : list T),
     trace r = [any (Call_getRank this);
                any (Call_bcast this SInt64 vecSize 1 kINT64 root);
                any (Call_bcast this SArray vec' (count vec') dtype root)]).
Proof.
  unfold vector_program, bcast_vector_size, call. cbn [bind run].
  destruct (h _ (Call_getRank this) st) as [[rank st1] |];
    cbn [trace outcome];
    [| split; [cbn; lia | intros [v Hv]; discriminate Hv]].
  match goal with
  | |- context [h ?X ?c st1] => destruct (h X c st1) as [[vecSize st2] |]
  end; cbn [trace outcome];
    [| split; [cbn; lia | intros [v Hv]; discriminate Hv]].
  unfold vector_resize.
  destruct (max_size traits ty <? to_size_t vecSize); cbn [bind run trace outcome];
    [split; [cbn; lia | intros [v Hv]; discriminate Hv] |].
  match goal with
  | |- context [h ?X ?c st2] => destruct (h X c st2) as [[vec' st3] |]
  end; cbn [trace outcome run].
  - split; [cbn; lia |]. intros _. eauto.
  - split; [cbn; lia | intros [v Hv]; discriminate Hv].
Qed.


(** C2, amended: every member function written in the header other than
    the vector overload of [bcast] consists of at most a type-tag lookup
    followed by a single forwarding call to the declared member function of
    the same name, with the arguments it was given: whatever the library
    answers, that call is all it makes.  The IBuffer overloads of
    [bcastAsync], [send] and [recv] make it only for a buffer outside GPU
    memory and make no call otherwise; the IBuffer overload of [bcast] and
    the typed helpers make it always.  The vector overload makes at most
    two communication calls and, when it returns, exactly a rank query
    followed by two broadcasts, the length as one [kINT64] and then the
    elements. *)
Theorem wrapper_methods_calls {T S : Type} `{Inhabited T}
    (traits : TypeTraits) (cfg : Config) (this : MpiComm) (m : Method T)
    (p : Prog T unit) (h : Handler T S) (st : S) :
  method_body traits cfg this m = Some p ->
  match m with
  | m_bcastAsync_IBuffer buf root =>
      trace (run h p st)
      = if MemoryType_eqb (getMemoryType buf) kGPU then []
        else [any (Call_bcastAsync this SBytes (data buf)
                     (getSizeInBytes buf) kBYTE root)]
  | m_bcast_IBuffer buf root =>
      trace (run h p st)
      = [any (Call_bcast this SBytes (data buf) (getSizeInBytes buf)
                kBYTE root)]
  | m_bcastValue ty value root =>
      exists (count : Z) (dtype : MpiType),
        selects traits cfg ty count dtype /\
        trace (run h p st)
        = [any (Call_bcast this SObject value count dtype root)]
  | m_bcast_vector ty vec root =>
      (communication_calls (trace (run h p st)) <= 2)%nat /\
      (outcome (run h p st) = Returned tt ->
       exists (vecSize : Z) (vec' : list T) (count : Z) (dtype : MpiType),
         trace (run h p st)
         = [any (Call_getRank this);
            any (Call_bcast this SInt64 vecSize 1 kINT64 root);
            any (Call_bcast this SArray vec' count dtype root)])
  | m_send_IBuffer buf dest tag =>
      trace (run h p st)
      = if MemoryType_eqb (getMemoryType buf) kGPU then []
        else [any (Call_send this SBytes (data buf) (getSizeInBytes buf)
                     kBYTE dest tag)]
  | m_send_value ty value dest tag =>
      exists (count : Z) (dtype : MpiType),
        selects traits cfg ty count dtype /\
        trace (run h p st)
        = [any (Call_send this SObject value count dtype dest tag)]
  | m_recv_IBuffer buf source tag =>
      trace (run h p st)
      = if MemoryType_eqb (getMemoryType buf) kGPU then []
        else [any (Call_recv this SBytes (data buf) (getSizeInBytes buf)
                     kBYTE source tag)]
  | m_recv_value ty value source tag =>
      exists (count : Z) (dtype : MpiType),
        selects traits cfg ty count dtype /\
        trace (run h p st)
        = [any (Call_recv this SObject value count dtype source tag)]
  end.
Proof.
  intros Hbody. destruct m; cbn [method_body] in Hbody.
  - injection Hbody as <-. rewrite run_discard_trace.
    unfold bcastAsync_IBuffer, TLLM_CHECK, TLLM_CHECK_WITH_INFO, not_kGPU,
      call.
    destruct (MemoryType_eqb (getMemoryType buf) kGPU); cbn [negb bind];
      [reflexivity | apply run_call_trace; reflexivity].
  - injection Hbody as <-. rewrite run_discard_trace.
    unfold bcast_IBuffer, call. cbn [bind].
    apply run_call_trace. reflexivity.
  - unfold bcastValue, selects in *.
    destruct (is_fundamental_v traits (remove_cv_t ty));
      [destruct (MpiTypeConverter cfg (remove_cv_t ty)) as [dtype |];
       [| discriminate] |];
      injection Hbody as <-; rewrite run_discard_trace, run_call_only;
      eexists _, _; (split; [| reflexivity]); [left | right]; auto.
  - destruct (bcast_vector traits cfg this ty vec root) as [q |] eqn:Hq;
      [| discriminate].
    injection Hbody as <-.
    apply bcast_vector_inv in Hq as (count & dtype & ->).
    rewrite run_discard_trace, run_discard_returned.
    destruct (vector_program_calls traits this ty root count dtype vec h st)
      as [Hle Hret].
    split; [exact Hle |]. intros Hv.
    destruct (Hret Hv) as (vecSize & vec' & ->). eauto.
  - injection Hbody as <-. rewrite run_discard_trace.
    unfold send_IBuffer, TLLM_CHECK, TLLM_CHECK_WITH_INFO, not_kGPU, call.
    destruct (MemoryType_eqb (getMemoryType buf) kGPU); cbn [negb bind];
      [reflexivity | apply run_call_trace; reflexivity].
  - unfold send_value, selects in *.
    destruct (is_fundamental_v traits (remove_cv_t ty));
      [destruct (MpiTypeConverter cfg (remove_cv_t ty)) as [dtype |];
       [| discriminate] |];
      injection Hbody as <-; rewrite run_discard_trace, run_call_only;
      eexists _, _; (split; [| reflexivity]); [left | right]; auto.
  - injection Hbody as <-. rewrite run_discard_trace.
    unfold recv_IBuffer, TLLM_CHECK, TLLM_CHECK_WITH_INFO, not_kGPU, call.
    destruct (MemoryType_eqb (getMemoryType buf) kGPU); cbn [negb bind];
      [reflexivity | apply run_call_trace; reflexivity].
  - unfold recv_value, selects in *.
    destruct (is_fundamental_v traits (remove_cv_t ty));
      [destruct (MpiTypeConverter cfg (remove_cv_t ty)) as [dtype |];
       [| discriminate] |];
      injection Hbody as <-; rewrite run_discard_trace, run_call_only;
      eexists _, _; (split; [| reflexivity]); [left | right]; auto.
Qed.

Lemma wrapper_methods_calls_witness :
  trace (run (Examples.echo Z 0 0)
           (discard (send_IBuffer Examples.owning Examples.host_buffer 1 7))
           tt)
  = [any (Call_send Examples.owning SBytes [Byte.x01; Byte.x02] 2 kBYTE 1 7)].
Proof.
  exact (wrapper_methods_calls Examples.lp64 Examples.none_enabled
           Examples.owning (m_send_IBuffer Examples.host_buffer 1 7)
           _ (Examples.echo Z 0 0) tt eq_refl).
Defined.

(* ===================================================================== *)
(** * Part III: further properties of the header and of the script *)
(* ===================================================================== *)

(** ** Sequencing *)

Lemma run_bind {T S A B : Type} (h : Handler T S) (p : Prog T A)
    (f : A -> Prog T B) (st : S) :
  run h (bind p f) st
  = match outcome (run h p st) with
    | Returned a =>
        {| trace := trace (run h p st)
                    ++ trace (run h (f a) (final (run h p st)));
           final := final (run h (f a) (final (run h p st)));
           outcome := outcome (run h (f a) (final (run h p st))) |}
    | Aborted msg =>
        {| trace := trace (run h p st);
           final := final (run h p st);
           outcome := Aborted msg |}
    | Thrown exn =>
        {| trace := trace (run h p st);
           final := final (run h p st);
           outcome := Thrown exn |}
    end.
Proof.
  revert st. induction p as [a | msg | exn | X c k IH]; intros st.
  - cbn [bind run outcome trace final app].
    destruct (run h (f a) st); reflexivity.
  - reflexivity.
  - reflexivity.
  - cbn [bind run]. destruct (h X c st) as [[x st'] |]; [| reflexivity].
    rewrite IH. cbn [outcome trace final].
    destruct (outcome (run h (k x) st')); reflexivity.
Qed.

(** ** The check macros *)

Lemma run_check_with_info {T S : Type} (h : Handler T S) (cmd : Prog T Z)
    (ok : Z -> bool) (info : string) (st : S) :
  trace (run h (bind cmd (fun e => TLLM_CHECK_WITH_INFO (ok e) info)) st)
  = trace (run h cmd st) /\
  outcome (run h (bind cmd (fun e => TLLM_CHECK_WITH_INFO (ok e) info)) st)
  = match outcome (run h cmd st) with
    | Returned e => if ok e then Returned tt else Aborted info
    | Aborted msg => Aborted msg
    | Thrown exn => Thrown exn
    end.
Proof.
  rewrite run_bind.
  destruct (outcome (run h cmd st)) as [e | msg | exn];
    cbn [trace outcome]; try (split; reflexivity).
  unfold TLLM_CHECK_WITH_INFO.
  destruct (ok e); cbn [run trace outcome]; rewrite app_nil_r;
    split; reflexivity.
Qed.

(** X1: [TLLM_MPI_CHECK(cmd)], and [MPICHECK(cmd)] which expands to it, run
    the command once and make no call of their own; they return exactly
    when the command returned [MPI_SUCCESS], abort with the diagnostic on
    any other value, and pass on an abort or an exception of the command. *)
Theorem TLLM_MPI_CHECK_runs_command_once {T S : Type} (mpi : NativeConstants)
    (cmd : Prog T Z) (h : Handler T S) (st : S) :
  trace (run h (TLLM_MPI_CHECK mpi cmd) st) = trace (run h cmd st) /\
  outcome (run h (TLLM_MPI_CHECK mpi cmd) st)
  = match outcome (run h cmd st) with
    | Returned e =>
        if e =? MPI_SUCCESS mpi then Returned tt
        else Aborted "Failed: MPI error %s:%d '%d'"
    | Aborted msg => Aborted msg
    | Thrown exn => Thrown exn
    end /\
  run h (MPICHECK mpi cmd) st = run h (TLLM_MPI_CHECK mpi cmd) st.
Proof.
  destruct (run_check_with_info h cmd (fun e => e =? MPI_SUCCESS mpi)
              "Failed: MPI error %s:%d '%d'" st) as [Htrace Houtcome].
  split; [exact Htrace |]. split; [exact Houtcome | reflexivity].
Qed.

(** ** The IBuffer overloads outside GPU memory *)

Lemma MemoryType_eqb_eq (a b : MemoryType) :
  MemoryType_eqb a b = true <-> a = b.
Proof.
  destruct a as [| i], b as [| j]; simpl; split; try congruence;
    try discriminate.
  - intros Hij. apply Nat.eqb_eq in Hij. congruence.
  - intros Hij. injection Hij as ->. apply Nat.eqb_refl.
Qed.

Lemma not_kGPU_true (buf : IBuffer) :
  not_kGPU buf = true <-> getMemoryType buf <> kGPU.
Proof.
  unfold not_kGPU. rewrite negb_true_iff, <- not_true_iff_false.
  rewrite MemoryType_eqb_eq. reflexivity.
Qed.

(** X2: for a buffer that is not in GPU memory, the IBuffer overloads of
    [bcastAsync], [send] and [recv] make exactly one call, the forwarding
    call with the buffer's data, its size in bytes and the tag [kBYTE]; so
    an overload makes no call exactly when the buffer is in GPU memory. *)
Theorem IBuffer_overloads_forward {T S : Type} (this : MpiComm)
    (buf : IBuffer) (root dest source tag : Z) (h : Handler T S) (st : S) :
  getMemoryType buf <> kGPU ->
  trace (run h (bcastAsync_IBuffer this buf root) st)
  = [any (Call_bcastAsync this SBytes (data buf) (getSizeInBytes buf)
            kBYTE root)] /\
  trace (run h (send_IBuffer this buf dest tag) st)
  = [any (Call_send this SBytes (data buf) (getSizeInBytes buf) kBYTE
            dest tag)] /\
  trace (run h (recv_IBuffer this buf source tag) st)
  = [any (Call_recv this SBytes (data buf) (getSizeInBytes buf) kBYTE
            source tag)].
Proof.
  intros Hmem. apply not_kGPU_true in Hmem.
  unfold bcastAsync_IBuffer, send_IBuffer, recv_IBuffer, TLLM_CHECK,
    TLLM_CHECK_WITH_INFO, call.
  rewrite Hmem. cbn [bind]. repeat split; apply run_call_trace; reflexivity.
Qed.

Lemma IBuffer_overloads_forward_witness :
  getMemoryType Examples.host_buffer <> kGPU /\
  trace (run (Examples.echo Z 0 0)
           (recv_IBuffer Examples.owning Examples.host_buffer 2 7) tt)
  = [any (Call_recv Examples.owning SBytes [Byte.x01; Byte.x02] 2 kBYTE 2 7)].
Proof.
  assert (Hmem : getMemoryType Examples.host_buffer <> kGPU)
    by (simpl; discriminate).
  split; [exact Hmem |].
  exact (proj2 (proj2 (IBuffer_overloads_forward (T := Z) Examples.owning
                         Examples.host_buffer 0 0 2 7
                         (Examples.echo Z 0 0) tt Hmem))).
Defined.

(** ** The tags in use *)

(** X5: every [MpiType] other than [kFP8] and [kBF16] is the tag of some
    type whatever the switches; [kFP8] is the tag of a type exactly when
    [ENABLE_FP8] is set, and [kBF16] exactly when [ENABLE_BF16] is. *)
Theorem MpiTypeConverter_tags_in_use (cfg : Config) (m : MpiType) :
  (exists t : CppType, MpiTypeConverter cfg t = Some m) <->
  (m = kFP8 -> ENABLE_FP8 cfg = true) /\
  (m = kBF16 -> ENABLE_BF16 cfg = true).
Proof.
  destruct cfg as [fp8 bf16]. cbn [ENABLE_FP8 ENABLE_BF16]. split.
  - intros [t Ht]. split; intros ->;
      destruct t; simpl in Ht; try discriminate;
      try (destruct fp8; [reflexivity | discriminate]);
      try (destruct bf16; [reflexivity | discriminate]);
      try (destruct fp8; discriminate);
      try (destruct bf16; discriminate).
  - intros [Hfp8 Hbf16]. destruct m.
    + exists t_std_byte. reflexivity.
    + exists t_half. reflexivity.
    + exists t_float. reflexivity.
    + exists t_double. reflexivity.
    + exists t_bool. reflexivity.
    + exists t_int8_t. reflexivity.
    + exists t_uint8_t. reflexivity.
    + exists t_int32_t. reflexivity.
    + exists t_uint32_t. reflexivity.
    + exists t_int64_t. reflexivity.
    + exists t_uint64_t. reflexivity.
    + exists t_nv_fp8_e4m3. simpl. rewrite (Hfp8 eq_refl). reflexivity.
    + exists t_nv_bfloat16. simpl. rewrite (Hbf16 eq_refl). reflexivity.
    + exists t_char. reflexivity.
Qed.

(** ** Comparing communicators *)

(** X6: [operator==] is an equivalence on communicator objects, and
    [operator!=], which compares with the operands exchanged, is symmetric
    all the same. *)
Theorem MpiComm_equality_equivalence (a b c : MpiComm) :
  eq_op a a = true /\
  eq_op a b = eq_op b a /\
  (eq_op a b = true -> eq_op b c = true -> eq_op a c = true) /\
  ne_op a b = ne_op b a /\
  ne_op a a = false.
Proof.
  unfold ne_op, eq_op. repeat split.
  - apply Z.eqb_refl.
  - apply Z.eqb_sym.
  - intros Hab Hbc. apply Z.eqb_eq in Hab, Hbc. apply Z.eqb_eq. congruence.
  - rewrite Z.eqb_sym. reflexivity.
  - rewrite Z.eqb_refl. reflexivity.
Qed.

(** X7: where [half], [__nv_fp8_e4m3] and [__nv_bfloat16] are not
    fundamental types, no typed helper ever tags a transfer [kHALF], [kFP8]
    or [kBF16]: each of [bcastValue], [send(T const&)] and [recv(T&)] makes
    one call, the three with the same count and tag, and for a [T] that is
    one of these three types the count is [sizeof(T)] and the tag [kBYTE],
    the converter's entry for it not being used. *)
Theorem typed_helpers_never_tag_class_types {T S : Type}
    (traits : TypeTraits) (cfg : Config) (this : MpiComm) (ty : CppType)
    (value : T) (root dest source tag : Z) (h : Handler T S) (st : S)
    (pb : Prog T T) (ps : Prog T unit) (pr : Prog T (MPI_Status * T)) :
  is_fundamental_v traits t_half = false ->
  is_fundamental_v traits t_nv_fp8_e4m3 = false ->
  is_fundamental_v traits t_nv_bfloat16 = false ->
  bcastValue traits cfg this ty value root = Some pb ->
  send_value traits cfg this ty value dest tag = Some ps ->
  recv_value traits cfg this ty value source tag = Some pr ->
  exists (count : Z) (dtype : MpiType),
    dtype <> kHALF /\ dtype <> kFP8 /\ dtype <> kBF16 /\
    (In (remove_cv_t ty) [t_half; t_nv_fp8_e4m3; t_nv_bfloat16] ->
     count = sizeof traits ty /\ dtype = kBYTE) /\
    trace (run h pb st) = [any (Call_bcast this SObject value count dtype root)]
    /\
    trace (run h ps st)
    = [any (Call_send this SObject value count dtype dest tag)] /\
    trace (run h pr st)
    = [any (Call_recv this SObject value count dtype source tag)].
Proof.
  intros Hhalf Hfp8 Hbf16. unfold bcastValue, send_value, recv_value.
  destruct (is_fundamental_v traits (remove_cv_t ty)) eqn:Hf.
  - destruct (MpiTypeConverter cfg (remove_cv_t ty)) as [dtype |] eqn:Hc;
      [| discriminate].
    cbn [mbind option_bind]. intros [= <-] [= <-] [= <-].
    exists 1, dtype. rewrite !run_call_only.
    split; [| split; [| split; [| split; [| repeat split]]]].
    + intros ->. destruct (remove_cv_t ty); simpl in Hc; try discriminate;
        try (destruct (ENABLE_FP8 cfg); discriminate);
        try (destruct (ENABLE_BF16 cfg); discriminate); congruence.
    + intros ->. destruct (remove_cv_t ty); simpl in Hc; try discriminate;
        try (destruct (ENABLE_FP8 cfg); discriminate);
        try (destruct (ENABLE_BF16 cfg); discriminate); congruence.
    + intros ->. destruct (remove_cv_t ty); simpl in Hc; try discriminate;
        try (destruct (ENABLE_FP8 cfg); discriminate);
        try (destruct (ENABLE_BF16 cfg); discriminate); congruence.
    + intros [Heq | [Heq | [Heq | []]]]; rewrite <- Heq in Hf; congruence.
  - intros [= <-] [= <-] [= <-].
    exists (sizeof traits ty), kBYTE. rewrite !run_call_only.
    repeat split; discriminate.
Qed.

Lemma typed_helpers_never_tag_class_types_witness :
  exists (pb : Prog Z Z) (ps : Prog Z unit) (pr : Prog Z (MPI_Status * Z)),
    bcastValue Examples.lp64 Examples.all_enabled Examples.owning t_half 42 0
    = Some pb /\
    send_value Examples.lp64 Examples.all_enabled Examples.owning t_half 42
      1 7 = Some ps /\
    recv_value Examples.lp64 Examples.all_enabled Examples.owning t_half 42
      1 7 = Some pr /\
    trace (run (Examples.echo Z 0 0) pb tt)
    = [any (Call_bcast Examples.owning SObject 42 2 kBYTE 0)] /\
    trace (run (Examples.echo Z 0 0) ps tt)
    = [any (Call_send Examples.owning SObject 42 2 kBYTE 1 7)] /\
    trace (run (Examples.echo Z 0 0) pr tt)
    = [any (Call_recv Examples.owning SObject 42 2 kBYTE 1 7)].
Proof.
  eexists _, _, _.
  split; [reflexivity |]. split; [reflexivity |]. split; [reflexivity |].
  destruct (typed_helpers_never_tag_class_types Examples.lp64
              Examples.all_enabled Examples.owning t_half 42 0 1 1 7
              (Examples.echo Z 0 0) tt _ _ _
              eq_refl eq_refl eq_refl eq_refl eq_refl eq_refl)
    as (count & dtype & _ & _ & _ & Hbytes & Hb & Hs & Hr).
  destruct Hbytes as [-> ->]; [simpl; auto |].
  split; [exact Hb |]. split; [exact Hs | exact Hr].
Defined.

(** ** The vector overload against any library *)

Lemma to_size_t_range (z : Z) : 0 <= to_size_t z < 2 ^ 64.
Proof. unfold to_size_t. apply Z.mod_pos_bound. reflexivity. Qed.

(** X8: whatever the library answers, a call of the vector overload that
    returns has made three calls: the rank query, the broadcast of one
    [kINT64] that offers the vector's own size or 0, and the broadcast of
    the data.  The buffer of the data broadcast is the vector cut or padded
    with value-initialised elements to a length within [max_size()], and
    its count is that length with the converter's tag for a fundamental
    type, and the length times [sizeof(T)], reduced modulo 2^64, with
    [kBYTE] otherwise. *)
Theorem bcast_vector_data_buffer {T S : Type} `{Inhabited T}
    (traits : TypeTraits) (cfg : Config) (this : MpiComm) (ty : CppType)
    (vec : list T) (root : Z) (p : Prog T (list T)) (h : Handler T S)
    (st : S) (v : list T) :
  bcast_vector traits cfg this ty vec root = Some p ->
  outcome (run h p st) = Returned v ->
  exists (vecSize : Z) (n : nat) (count : Z) (dtype : MpiType),
    trace (run h p st)
    = [any (Call_getRank this);
       any (Call_bcast this SInt64 vecSize 1 kINT64 root);
       any (Call_bcast this SArray (resize n inhabitant vec) count dtype
              root)] /\
    (vecSize = to_int64 (size vec) \/ vecSize = 0) /\
    Z.of_nat n <= max_size traits ty /\
    ((is_fundamental_v traits (remove_cv_t ty) = true /\
      MpiTypeConverter cfg (remove_cv_t ty) = Some dtype /\
      count = Z.of_nat n) \/
     (is_fundamental_v traits (remove_cv_t ty) = false /\
      dtype = kBYTE /\
      count = to_size_t (Z.of_nat n * sizeof traits ty))).
Proof.
  intros Hp Hv.
  assert (Hshape : exists (count : list T -> Z) (dtype : MpiType),
             p = vector_program traits this ty root count dtype vec /\
             forall n : nat,
               (is_fundamental_v traits (remove_cv_t ty) = true /\
                MpiTypeConverter cfg (remove_cv_t ty) = Some dtype /\
                count (resize n inhabitant vec) = Z.of_nat n) \/
               (is_fundamental_v traits (remove_cv_t ty) = false /\
                dtype = kBYTE /\
                count (resize n inhabitant vec)
                = to_size_t (Z.of_nat n * sizeof traits ty))).
  { unfold bcast_vector in Hp.
    destruct (is_fundamental_v traits (remove_cv_t ty)).
    - destruct (MpiTypeConverter cfg (remove_cv_t ty)) as [dtype |];
        [| discriminate].
      injection Hp as <-. exists size, dtype. split; [reflexivity |].
      intros n. left. unfold size. rewrite length_resize. auto.
    - injection Hp as <-.
      exists (fun vec => to_size_t (size vec * sizeof traits ty)), kBYTE.
      split; [reflexivity |].
      intros n. right. unfold size. rewrite length_resize. auto. }
  destruct Hshape as (count & dtype & -> & Hcount).
  revert Hv. unfold vector_program, bcast_vector_size, call. cbn [bind run].
  destruct (h _ (Call_getRank this) st) as [[rank st1] |];
    cbn [trace outcome]; [| discriminate].
  match goal with
  | |- context [h ?X ?c st1] => destruct (h X c st1) as [[vecSize st2] |]
  end; cbn [trace outcome]; [| discriminate].
  unfold vector_resize.
  destruct (max_size traits ty <? to_size_t vecSize) eqn:Hmax;
    cbn [bind run trace outcome]; [discriminate |].
  match goal with
  | |- context [h ?X ?c st2] => destruct (h X c st2) as [[vec' st3] |]
  end; cbn [trace outcome run]; [| discriminate].
  intros _.
  exists (if rank =? root then to_int64 (size vec) else to_int64 0),
    (Z.to_nat (to_size_t vecSize)),
    (count (resize (Z.to_nat (to_size_t vecSize)) inhabitant vec)), dtype.
  split; [reflexivity |]. split.
  { destruct (rank =? root); [left | right]; reflexivity. }
  pose proof (to_size_t_range vecSize) as Hrange.
  apply Z.ltb_ge in Hmax.
  split; [rewrite Z2Nat.id; lia |]. apply Hcount.
Qed.

Lemma bcast_vector_data_buffer_witness :
  exists (vecSize : Z) (n : nat) (count : Z) (dtype : MpiType),
    trace (run (Examples.echo Z 3 0)
             (vector_program Examples.lp64 Examples.owning (t_named "pair") 0
                (fun vec => to_size_t (size vec * 16)) kBYTE [7; 8; 9]) tt)
    = [any (Call_getRank Examples.owning);
       any (Call_bcast Examples.owning SInt64 vecSize 1 kINT64 0);
       any (Call_bcast Examples.owning SArray (resize n inhabitant [7; 8; 9])
              count dtype 0)] /\
    (vecSize = to_int64 (size [7; 8; 9]) \/ vecSize = 0) /\
    Z.of_nat n <= max_size Examples.lp64 (t_named "pair") /\
    ((is_fundamental_v Examples.lp64 (remove_cv_t (t_named "pair")) = true /\
      MpiTypeConverter Examples.none_enabled (remove_cv_t (t_named "pair"))
      = Some dtype /\
      count = Z.of_nat n) \/
     (is_fundamental_v Examples.lp64 (remove_cv_t (t_named "pair")) = false /\
      dtype = kBYTE /\
      count = to_size_t (Z.of_nat n * sizeof Examples.lp64 (t_named "pair")))).
Proof.
  refine (bcast_vector_data_buffer Examples.lp64 Examples.none_enabled
            Examples.owning (t_named "pair") [7; 8; 9] 0 _
            (Examples.echo Z 3 0) tt [] _ _).
  - reflexivity.
  - reflexivity.
Defined.

(** X9: when the size that comes back from the first broadcast, converted
    to [size_t], is beyond [max_size()] (as every negative size is when
    [max_size()] is below 2^63), [resize] throws [std::length_error] and the
    data broadcast is not made. *)
Theorem bcast_vector_length_error {T S : Type} `{Inhabited T}
    (traits : TypeTraits) (cfg : Config) (this : MpiComm) (ty : CppType)
    (vec : list T) (root : Z) (p : Prog T (list T)) (h : Handler T S)
    (st st1 st2 : S) (rank vecSize : Z) :
  bcast_vector traits cfg this ty vec root = Some p ->
  h _ (Call_getRank this) st = Some (rank, st1) ->
  h _ (Call_bcast this SInt64
         (if rank =? root then to_int64 (size vec) else to_int64 0)
         1 kINT64 root) st1 = Some (vecSize, st2) ->
  (max_size traits ty < to_size_t vecSize \/
   (vecSize < 0 /\ - 2 ^ 63 <= vecSize /\ max_size traits ty < 2 ^ 63)) ->
  outcome (run h p st) = Thrown "std::length_error" /\
  trace (run h p st)
  = [any (Call_getRank this);
     any (Call_bcast this SInt64
            (if rank =? root then to_int64 (size vec) else to_int64 0)
            1 kINT64 root)].
Proof.
  intros Hp Hrank Hsize Hbig.
  assert (Hmax : (max_size traits ty <? to_size_t vecSize) = true).
  { apply Z.ltb_lt. destruct Hbig as [Hbig | (Hneg & Hlow & Hmax)];
      [exact Hbig |].
    unfold to_size_t.
    replace (vecSize mod 2 ^ 64) with (vecSize + 2 ^ 64); [lia |].
    apply Z.mod_unique with (q := -1); lia. }
  apply bcast_vector_inv in Hp as (count & dtype & ->).
  unfold vector_program, bcast_vector_size, call. cbn [bind run].
  rewrite Hrank. cbn [trace outcome].
  match goal with
  | |- context [h ?X ?c st1] =>
      replace (h X c st1) with (Some (vecSize, st2))
        by (symmetry; exact Hsize)
  end.
  cbn [trace outcome].
  unfold vector_resize. rewrite Hmax. split; reflexivity.
Qed.

Lemma bcast_vector_length_error_witness :
  outcome (run (Examples.answering Z 1 0 (-1))
             (vector_program Examples.lp64 Examples.owning t_int32_t 0
                size kINT32 [7; 8; 9]) tt)
  = Thrown "std::length_error".
Proof.
  refine (proj1 (bcast_vector_length_error Examples.lp64
                   Examples.none_enabled Examples.owning t_int32_t [7; 8; 9]
                   0 _ (Examples.answering Z 1 0 (-1)) tt tt tt 1 (-1)
                   _ _ _ _)).
  - reflexivity.
  - reflexivity.
  - reflexivity.
  - right. vm_compute. repeat split; discriminate.
Defined.

(** ** What the broadcast of a vector delivers *)

(** X10: under the conditions of the size property, the call returns on
    every process with the root's vector itself: the same elements in the
    same order, whatever the vector of the process held before; on the
    root the vector is as it was. *)
Theorem bcast_vector_contents {T : Type} `{Inhabited T} (traits : TypeTraits)
    (cfg : Config) (this : MpiComm) (ty : CppType) (root : Z)
    (vecs : list (list T)) (root_vec : list T) :
  (is_fundamental_v traits (remove_cv_t ty) = true ->
   is_Some (MpiTypeConverter cfg (remove_cv_t ty))) ->
  0 <= root ->
  vecs !! Z.to_nat root = Some root_vec ->
  size root_vec <= max_size traits ty ->
  max_size traits ty < 2 ^ 64 ->
  bcast_vector_world traits cfg this ty root vecs
  = Some (replicate (length vecs) (Returned root_vec)).
Proof.
  intros Hwf Hroot Hlookup Hsize Hmax.
  destruct (bcast_vector_program (T := T) traits this ty root cfg Hwf)
    as (count & dtype & Hprog).
  unfold bcast_vector_world.
  rewrite (mapM_total _ (vector_program traits this ty root count dtype))
    by exact Hprog.
  cbn [mbind option_bind]. f_equal.
  unfold broadcast_world.
  replace (0 <=? root) with true by (symmetry; apply Z.leb_le; lia).
  rewrite list_lookup_fmap, Hlookup. cbn [fmap option_fmap option_map].
  rewrite (run_root traits this ty root count dtype root_vec Hsize Hmax).
  cbn [trace sent omap any projT2].
  apply list_eq. intros rank.
  rewrite list_lookup_imap, list_lookup_fmap.
  destruct (vecs !! rank) as [vec |] eqn:Hvec;
    cbn [fmap option_fmap option_map].
  - rewrite lookup_replicate_2 by (eapply lookup_lt_Some; exact Hvec).
    f_equal.
    destruct (Z.eq_dec (Z.of_nat rank) root) as [Heq | Hne].
    + assert (rank = Z.to_nat root) as -> by lia.
      assert (vec = root_vec) as -> by congruence.
      rewrite Z2Nat.id by lia.
      rewrite (run_root traits this ty root count dtype root_vec Hsize Hmax).
      reflexivity.
    + apply (run_peer traits this ty root count dtype root_vec Hsize Hmax).
      exact Hne.
  - symmetry. apply lookup_replicate_None.
    apply lookup_ge_None. exact Hvec.
Qed.

Lemma bcast_vector_contents_witness :
  bcast_vector_world Examples.lp64 Examples.none_enabled Examples.owning
    (t_named "pair") 2 [[1; 2; 3]; []; [4; 5]; [1; 1; 1; 1; 1]]
  = Some (replicate 4 (Returned [4; 5])).
Proof.
  apply (bcast_vector_contents Examples.lp64 Examples.none_enabled
           Examples.owning (t_named "pair") 2
           [[1; 2; 3]; []; [4; 5]; [1; 1; 1; 1; 1]] [4; 5]).
  - intros Hf. discriminate Hf.
  - lia.
  - reflexivity.
  - vm_compute. discriminate.
  - vm_compute. reflexivity.
Defined.

(** ** The script: variables and environment *)

Lemma environment_lookup (sh : Shell) (name : string) :
  environment sh !! name
  = if decide (name ∈ exported sh) then vars sh !! name else None.
Proof.
  unfold environment. apply option_eq. intros value.
  rewrite map_lookup_filter_Some. cbn [fst].
  destruct (decide (name ∈ exported sh)) as [Hin | Hout].
  - tauto.
  - split; [tauto | discriminate].
Qed.

Lemma vars_before_generate (t : Tools) (sh : Shell) :
  vars (before_generate t sh) = vars (set_variables t sh).
Proof.
  unfold before_generate, replace_dependencies.
  destruct (String.ltb (cu_prefix (set_variables t sh)) "cu12");
    [| reflexivity].
  destruct (fs (set_variables t sh) !! "pyproject.toml"); reflexivity.
Qed.

Lemma exported_before_generate (t : Tools) (sh : Shell) :
  exported (before_generate t sh)
  = {["TORCH_INSTALL_PATH"]} ∪ ({["TORCH_BUILD_NUMBER"]} ∪ exported sh).
Proof.
  unfold before_generate, replace_dependencies.
  destruct (String.ltb (cu_prefix (set_variables t sh)) "cu12");
    [| reflexivity].
  destruct (fs (set_variables t sh) !! "pyproject.toml"); reflexivity.
Qed.

Lemma vars_set_variables_other (t : Tools) (sh : Shell) (name : string) :
  name ∉ assigned_before_generate ->
  vars (set_variables t sh) !! name = vars sh !! name.
Proof.
  unfold assigned_before_generate. intros Hout.
  repeat (apply not_elem_of_cons in Hout as [? Hout]).
  unfold set_variables, export, assign. cbn [vars].
  rewrite !lookup_insert_ne by congruence. reflexivity.
Qed.

(** X11: [envsubst] runs with [TORCH_BUILD_NUMBER] and [TORCH_INSTALL_PATH]
    in its environment, holding what the two [python] one-liners printed,
    whatever the caller's environment had under these names. *)
Theorem generate_sees_torch_variables (t : Tools) (sh : Shell) :
  environment (before_generate t sh) !! "TORCH_BUILD_NUMBER"
  = Some (python_torch_version t) /\
  environment (before_generate t sh) !! "TORCH_INSTALL_PATH"
  = Some (python_torch_path t).
Proof.
  rewrite !environment_lookup, exported_before_generate, vars_before_generate.
  split.
  - rewrite decide_True by set_solver.
    unfold set_variables, export, assign. cbn [vars].
    rewrite lookup_insert_ne by discriminate. apply lookup_insert_eq.
  - rewrite decide_True by set_solver.
    unfold set_variables, export, assign. cbn [vars].
    apply lookup_insert_eq.
Qed.

(** X12: the variables the script assigns without [export]
    ([TORCH_TORCHVISION], [INDEX_URL], [TRT_VERSION]) reach [envsubst]
    exactly when the caller had exported a variable of that name; a
    template that refers to one of them is otherwise filled from an
    environment without it. *)
Theorem generate_sees_unexported_only_if_inherited (t : Tools) (sh : Shell)
    (name : string) :
  name ∈ ["TORCH_TORCHVISION"; "INDEX_URL"; "TRT_VERSION"] ->
  (is_Some (environment (before_generate t sh) !! name)
   <-> name ∈ exported sh) /\
  (name ∈ exported sh ->
   environment (before_generate t sh) !! name
   = vars (set_variables t sh) !! name).
Proof.
  intros Hname.
  rewrite environment_lookup, exported_before_generate, vars_before_generate.
  assert (Hset : is_Some (vars (set_variables t sh) !! name)).
  { unfold set_variables, export, assign. cbn [vars].
    repeat (apply elem_of_cons in Hname as [-> | Hname]);
      [| | | apply elem_of_nil in Hname; destruct Hname];
      repeat (rewrite lookup_insert_ne by discriminate);
      rewrite lookup_insert_eq; eauto. }
  assert (Hiff : name ∈ ({["TORCH_INSTALL_PATH"]}
                         ∪ ({["TORCH_BUILD_NUMBER"]} ∪ exported sh)
                         : gset string)
                 <-> name ∈ exported sh).
  { repeat (apply elem_of_cons in Hname as [-> | Hname]);
      [| | | apply elem_of_nil in Hname; destruct Hname];
      set_solver. }
  destruct (decide (name ∈ ({["TORCH_INSTALL_PATH"]}
                            ∪ ({["TORCH_BUILD_NUMBER"]} ∪ exported sh))))
    as [Hin | Hout].
  - split; [tauto | reflexivity].
  - split.
    + split; [intros [v Hv]; discriminate Hv | tauto].
    + tauto.
Qed.

Lemma generate_sees_unexported_only_if_inherited_witness :
  ~ is_Some (environment (before_generate Examples.tools Examples.ci_shell)
             !! "TRT_VERSION").
Proof.
  assert (Hname : "TRT_VERSION"
                  ∈ ["TORCH_TORCHVISION"; "INDEX_URL"; "TRT_VERSION"])
    by (apply list_elem_of_In; simpl; tauto).
  assert (Hnot : "TRT_VERSION" ∉ exported Examples.ci_shell)
    by (apply (bool_decide_eq_false_1 _); vm_compute; reflexivity).
  destruct (generate_sees_unexported_only_if_inherited Examples.tools
              Examples.ci_shell "TRT_VERSION" Hname) as [Hiff _].
  intros Hsome. apply Hnot, Hiff, Hsome.
Defined.

Lemma environment_before_generate_other (t : Tools) (sh : Shell)
    (name : string) :
  name ∉ assigned_before_generate ->
  environment (before_generate t sh) !! name = environment sh !! name.
Proof.
  intros Hout.
  rewrite !environment_lookup, exported_before_generate, vars_before_generate.
  rewrite vars_set_variables_other by exact Hout.
  unfold assigned_before_generate in Hout.
  repeat (apply not_elem_of_cons in Hout as [? Hout]).
  destruct (decide (name ∈ exported sh)) as [Hin | Hnin].
  - rewrite decide_True by set_solver. reflexivity.
  - rewrite decide_False by set_solver. reflexivity.
Qed.

(** X13: [CI_BUILD], [CHANNEL] and [CU_VERSION], which the script uses but
    does not assign before line 37, reach [envsubst] as the caller's
    environment had them; in particular the script's own
    [export CI_BUILD=1] comes after the file is generated and does not
    show in it. *)
Theorem generate_sees_inherited_environment (t : Tools) (sh : Shell)
    (name : string) :
  In name ["CI_BUILD"; "CHANNEL"; "CU_VERSION"] ->
  environment (before_generate t sh) !! name = environment sh !! name.
Proof.
  intros Hname. apply environment_before_generate_other.
  unfold assigned_before_generate.
  destruct Hname as [<- | [<- | [<- | []]]];
    repeat (apply not_elem_of_cons; split; [discriminate |]);
    apply not_elem_of_nil.
Qed.

Lemma generate_sees_inherited_environment_witness :
  environment (before_generate Examples.tools Examples.ci_shell) !! "CHANNEL"
  = Some "nightly" /\
  environment (before_generate Examples.tools Examples.ci_shell) !! "CI_BUILD"
  = None.
Proof.
  split.
  - refine (eq_trans (generate_sees_inherited_environment Examples.tools
                        Examples.ci_shell "CHANNEL" _) _).
    + simpl. tauto.
    + vm_compute. reflexivity.
  - refine (eq_trans (generate_sees_inherited_environment Examples.tools
                        Examples.ci_shell "CI_BUILD" _) _).
    + simpl. tauto.
    + vm_compute. reflexivity.
Defined.

(** X14: on exit [CI_BUILD] is exported with the value 1; the script
    exports three names beyond those the caller had exported and removes
    none; and [CHANNEL] and [CU_VERSION], which it reads, have the values
    they had: the script never assigns them. *)
Theorem script_variables_on_exit (t : Tools) (sh : Shell) :
  environment (pre_build_script t sh) !! "CI_BUILD" = Some "1" /\
  exported (pre_build_script t sh)
  = {["CI_BUILD"; "TORCH_INSTALL_PATH"; "TORCH_BUILD_NUMBER"]} ∪ exported sh /\
  vars (pre_build_script t sh) !! "CHANNEL" = vars sh !! "CHANNEL" /\
  vars (pre_build_script t sh) !! "CU_VERSION" = vars sh !! "CU_VERSION".
Proof.
  assert (Hexp : exported (pre_build_script t sh)
            = {["CI_BUILD"; "TORCH_INSTALL_PATH"; "TORCH_BUILD_NUMBER"]}
              ∪ exported sh).
  { unfold pre_build_script, generate_module, export, redirect.
    cbn [exported]. rewrite exported_before_generate. set_solver. }
  assert (Hkeep : forall name : string,
             name <> "CI_BUILD" ->
             name ∉ assigned_before_generate ->
             vars (pre_build_script t sh) !! name = vars sh !! name).
  { intros name Hci Hout.
    unfold pre_build_script, generate_module, export, redirect. cbn [vars].
    rewrite lookup_insert_ne by congruence.
    rewrite vars_before_generate. apply vars_set_variables_other. exact Hout. }
  split; [| split; [exact Hexp | split]].
  - rewrite environment_lookup, Hexp. rewrite decide_True by set_solver.
    unfold pre_build_script, export. cbn [vars]. apply lookup_insert_eq.
  - apply Hkeep; [discriminate |]. unfold assigned_before_generate.
    repeat (apply not_elem_of_cons; split; [discriminate |]).
    apply not_elem_of_nil.
  - apply Hkeep; [discriminate |]. unfold assigned_before_generate.
    repeat (apply not_elem_of_cons; split; [discriminate |]).
    apply not_elem_of_nil.
Qed.

(** ** The script: files *)

Lemma cu_prefix_set_variables (t : Tools) (sh : Shell) :
  cu_prefix (set_variables t sh) = cu_prefix sh.
Proof.
  unfold cu_prefix, expand. rewrite vars_set_variables_other; [reflexivity |].
  unfold assigned_before_generate.
  repeat (apply not_elem_of_cons; split; [discriminate |]).
  apply not_elem_of_nil.
Qed.

(** X16: pyproject.toml is rewritten only when it is there and the first
    four characters of the caller's [CU_VERSION] sort before "cu12"; it
    then holds what [sed] makes of it with the three substitutions built
    from these characters.  Otherwise it is as it was, and [sed -i] never
    creates it. *)
Theorem script_pyproject (t : Tools) (sh : Shell) :
  fs (pre_build_script t sh) !! "pyproject.toml"
  = if String.ltb (String.substring 0 4 (expand "CU_VERSION" sh)) "cu12"
    then
      sed t
        [ ("tensorrt-cu12==",
           "tensorrt-" +:+ String.substring 0 4 (expand "CU_VERSION" sh)
           +:+ "==");
          ("tensorrt-cu12-bindings==",
           "tensorrt-" +:+ String.substring 0 4 (expand "CU_VERSION" sh)
           +:+ "-bindings==");
          ("tensorrt-cu12-libs==",
           "tensorrt-" +:+ String.substring 0 4 (expand "CU_VERSION" sh)
           +:+ "-libs==") ]
      <$> fs sh !! "pyproject.toml"
    else fs sh !! "pyproject.toml".
Proof.
  unfold pre_build_script, generate_module, export, redirect. cbn [fs].
  rewrite lookup_insert_ne by discriminate.
  unfold before_generate, replace_dependencies.
  rewrite cu_prefix_set_variables, fs_set_variables.
  fold (cu_prefix sh).
  destruct (String.ltb (cu_prefix sh) "cu12"); [| reflexivity].
  destruct (fs sh !! "pyproject.toml") as [contents |] eqn:Hpy.
  - unfold redirect. cbn [fs]. rewrite fs_set_variables.
    rewrite lookup_insert_eq. reflexivity.
  - rewrite fs_set_variables. rewrite Hpy. reflexivity.
Qed.

(** X17: without the template the script still creates MODULE.bazel: it
    holds what [envsubst] prints for an empty input, and the template is
    not created. *)
Theorem module_bazel_without_template (t : Tools) (sh : Shell) :
  fs sh !! template = None ->
  fs (pre_build_script t sh) !! "MODULE.bazel"
  = Some (envsubst t (environment (before_generate t sh)) "") /\
  fs (pre_build_script t sh) !! template = None.
Proof.
  intros Htmpl.
  assert (Hbefore : fs (before_generate t sh) !! template = None).
  { unfold before_generate. rewrite fs_replace_dependencies.
    - rewrite fs_set_variables. exact Htmpl.
    - unfold template. discriminate. }
  unfold pre_build_script, generate_module. simpl. split.
  - rewrite lookup_insert_eq. unfold cat. rewrite Hbefore. reflexivity.
  - rewrite lookup_insert_ne; [exact Hbefore |].
    unfold template. discriminate.
Qed.

Lemma module_bazel_without_template_witness :
  fs (pre_build_script Examples.tools
        (redirect "pyproject.toml" "" (assign "CU_VERSION" "cu124"
           {| vars := ∅; exported := ∅; fs := ∅ |})))
  !! "MODULE.bazel" = Some "".
Proof.
  refine (eq_trans (proj1 (module_bazel_without_template Examples.tools
                             _ _)) _).
  - reflexivity.
  - reflexivity.
Defined.

(** X18: what MODULE.bazel held before the script ran, or whether it was
    there at all, makes no difference to the state the script leaves. *)
Theorem script_replaces_stale_module (t : Tools) (sh : Shell)
    (stale : string) :
  pre_build_script t (redirect "MODULE.bazel" stale sh)
  = pre_build_script t sh.
Proof.
  assert (Hfs : forall path : string,
             path <> "MODULE.bazel" ->
             fs (redirect "MODULE.bazel" stale sh) !! path = fs sh !! path).
  { intros path Hne. unfold redirect. cbn [fs].
    apply lookup_insert_ne. congruence. }
  assert (Hset : set_variables t (redirect "MODULE.bazel" stale sh)
                 = redirect "MODULE.bazel" stale (set_variables t sh)).
  { unfold set_variables, cat, expand, assign, export, redirect.
    cbn [vars exported fs].
    rewrite !lookup_insert_ne by discriminate. reflexivity. }
  assert (Hrep : replace_dependencies t
                   (redirect "MODULE.bazel" stale (set_variables t sh))
                 = redirect "MODULE.bazel" stale
                     (replace_dependencies t (set_variables t sh))).
  { unfold replace_dependencies, cu_prefix, expand, redirect.
    cbn [vars exported fs].
    destruct (String.ltb _ "cu12"); [| reflexivity].
    rewrite lookup_insert_ne by discriminate.
    destruct (fs (set_variables t sh) !! "pyproject.toml"); [| reflexivity].
    cbn [vars exported fs]. f_equal.
    apply insert_insert_ne. discriminate. }
  unfold pre_build_script, before_generate. rewrite Hset, Hrep.
  f_equal.
  unfold generate_module, cat, environment, redirect.
  cbn [vars exported fs].
  rewrite lookup_insert_ne by (unfold template; discriminate).
  rewrite insert_insert_eq. reflexivity.
Qed.
